(** * matcalc.relaxation: trajectory observer and relaxation driver

    A shallow embedding of [src/matcalc/relaxation.py].  Python objects
    that are mutated in place are modelled by explicit state passing; code
    that can raise returns a [Result].  The external collaborators (ASE
    atoms, calculators and optimizers, the pymatgen adaptor, pickle) are
    modelled by their call contracts or taken as parameters. *)

From Stdlib Require Import ZArith String List Lia Floats.PrimFloat.
From stdpp Require Import gmap strings list fin_maps.

Open Scope string_scope.
Open Scope Z_scope.

(** ** Python values, exceptions and results *)

(** A Python [float] is an IEEE binary64 number. *)
Abbreviation float := PrimFloat.float.

(** One- and two-dimensional [numpy] arrays of floats, row-major. *)
Definition vec := list float.
Definition matrix := list vec.

Inductive Exn : Type :=
| ValueError (msg : string)
| TypeError (msg : string)
| IndexError (msg : string)
| RuntimeError (msg : string)
| OSError (msg : string)
| PropertyNotImplementedError (msg : string)
| ExternalError (msg : string).

Inductive Result (A : Type) : Type :=
| Ok (a : A)
| Raise (e : Exn).
Arguments Ok {A} a.
Arguments Raise {A} e.

Definition is_ok {A} (r : Result A) : bool :=
  match r with Ok _ => true | Raise _ => false end.

(** Computations over a mutable state [S] that may raise.  The state is
    returned on both outcomes: what a Python method did to its object
    before raising stays done. *)
Definition StE (S A : Type) : Type := S -> Result A * S.

Definition ret {S A} (a : A) : StE S A := fun s => (Ok a, s).
Definition raise {S A} (e : Exn) : StE S A := fun s => (Raise e, s).
Definition bind {S A B} (m : StE S A) (k : A -> StE S B) : StE S B :=
  fun s => match m s with
           | (Ok a, s') => k a s'
           | (Raise e, s') => (Raise e, s')
           end.
Definition modify {S} (f : S -> S) : StE S unit := fun s => (Ok tt, f s).
Definition lift_result {S A} (r : Result A) : StE S A := fun s => (r, s).

Notation "x <- m ;; k" := (bind m (fun x => k))
  (at level 20, m at level 99, k at level 200, only parsing).
Notation "m ;; k" := (bind m (fun _ => k))
  (at level 100, k at level 200, only parsing, right associativity).

(** The IndexError of a list for an index it does not hold.  An index
    that does not fit a machine index ([Py_ssize_t], 64 bits) is refused
    as such; a list is shorter than that, so such an index is never in
    range. *)
Definition index_error (i : Z) : Exn :=
  if (- 2 ^ 63 <=? i) && (i <? 2 ^ 63)
  then IndexError "list index out of range"
  else IndexError "cannot fit 'int' into an index-sized integer".

(** Python sequence indexing [l[i]]: negative indices count from the end,
    anything outside [-len, len) raises [IndexError]. *)
Definition py_index {A} (l : list A) (i : Z) : Result A :=
  let n := Z.of_nat (length l) in
  let j := if i <? 0 then i + n else i in
  if (0 <=? j) && (j <? n) then
    match l !! Z.to_nat j with
    | Some x => Ok x
    | None => Raise (index_error i)
    end
  else Raise (index_error i).

(** ** ASE atoms and calculators (external, modelled by contract) *)

Record Atom := { number : Z; position : vec }.

(** A calculator computes energy, forces and stress of a geometry on
    demand; each of the three may raise. *)
Record Calculator := {
  calc_energy : list Atom -> matrix -> Result float;
  calc_forces : list Atom -> matrix -> Result matrix;
  calc_stress : list Atom -> matrix -> Result vec;
}.

Record Atoms := {
  atom_list : list Atom;
  cell : matrix;
  calc : option Calculator;
}.

Definition natoms (a : Atoms) : nat := length (atom_list a).

Definition get_potential_energy (a : Atoms) : Result float :=
  match calc a with
  | Some c => calc_energy c (atom_list a) (cell a)
  | None => Raise (RuntimeError "Atoms object has no calculator.")
  end.

Definition get_forces (a : Atoms) : Result matrix :=
  match calc a with
  | Some c => calc_forces c (atom_list a) (cell a)
  | None => Raise (RuntimeError "Atoms object has no calculator.")
  end.

Definition get_stress (a : Atoms) : Result vec :=
  match calc a with
  | Some c => calc_stress c (atom_list a) (cell a)
  | None => Raise (RuntimeError "Atoms object has no calculator.")
  end.

Definition get_positions (a : Atoms) : matrix := map position (atom_list a).
Definition get_cell (a : Atoms) : matrix := cell a.
Definition get_atomic_numbers (a : Atoms) : list Z := map number (atom_list a).

Definition set_calculator (a : Atoms) (c : Calculator) : Atoms :=
  {| atom_list := atom_list a; cell := cell a; calc := Some c |}.

Definition set_cell (a : Atoms) (c : matrix) : Atoms :=
  {| atom_list := atom_list a; cell := c; calc := calc a |}.

(** [set_positions] keeps the atoms and their number: an array of another
    length is refused. *)
Definition set_positions (a : Atoms) (p : matrix) : Result Atoms :=
  if Nat.eqb (length p) (natoms a) then
    Ok {| atom_list :=
            zip_with (fun at_ x => {| number := number at_; position := x |})
                     (atom_list a) p;
          cell := cell a; calc := calc a |}
  else Raise (ValueError "Array has wrong shape").

(** ** pymatgen structures (external) *)

Record Site := { species : Z; coords : vec }.
Record Structure := { lattice : matrix; sites : list Site }.

(** ** Optimizers (external, modelled by contract) *)

(** The eight ASE classes the module imports. *)
Inductive AseOptimizer : Type :=
| FIRE | BFGS | LBFGS | LBFGSLineSearch | MDMin
| SciPyFminCG | SciPyFminBFGS | BFGSLineSearch.

(** What an optimizer that was built on the filtered atoms, given an
    attached observer and told to run, does to the driver's objects: it
    moves the atoms and the cell through the filter, writes progress lines
    to its log (the [sys.stdout] of the time it was built), calls the
    attached observers on the steps its interval selects, and may raise. *)
Inductive OptAction : Type :=
| OptSetPositions (p : matrix)
| OptSetCell (c : matrix)
| OptLog (line : string)
| OptCallObservers
| OptRaise (e : Exn).

(** [opt_class(atoms)], [.attach(obs, interval)] and [.run(fmax, steps)]
    determine the actions.  The calculator is a function of the geometry
    and only the optimizer moves the atoms, so they are a function of the
    initial atoms. *)
Record OptimizerClass := {
  opt_run : Atoms -> Z -> float -> Z -> list OptAction;
}.

(** The value held in [opt_class]: one of the registered ASE classes or an
    object supplied by the caller. *)
Inductive PyCallable : Type :=
| AseClass (o : AseOptimizer)
| UserCallable (c : OptimizerClass).

Definition OPTIMIZERS : gmap string AseOptimizer :=
  <["FIRE" := FIRE]> (
  <["BFGS" := BFGS]> (
  <["LBFGS" := LBFGS]> (
  <["LBFGSLineSearch" := LBFGSLineSearch]> (
  <["MDMin" := MDMin]> (
  <["SciPyFminCG" := SciPyFminCG]> (
  <["SciPyFminBFGS" := SciPyFminBFGS]> (
  <["BFGSLineSearch" := BFGSLineSearch]> ∅))))))).

(** The dict [save] pickles, key by key. *)
Module Out.
Record dict := {
  energy : list float;
  forces : list matrix;
  stresses : list vec;
  atom_positions : list matrix;
  cell : list matrix;
  atomic_number : list Z;
}.
End Out.

(** ** The toolkit: what the module imports and does not define *)

Class Toolkit := {
  (** file contents *)
  Blob : Type;
  (** [pickle.dump] and, for reading a trajectory file back, [pickle.load] *)
  pickle_dump : Out.dict -> Blob;
  pickle_load : Blob -> Result Out.dict;
  (** the behaviour of the ASE optimizer classes *)
  ase_optimizer : AseOptimizer -> OptimizerClass;
  (** [AseAtomsAdaptor.get_atoms] and [.get_structure]: both build a new
      object from their argument and may raise *)
  get_atoms : Structure -> Result Atoms;
  get_structure : Atoms -> Result Structure;
  (** pymatgen's lattice properties *)
  lattice_a : matrix -> float;
  lattice_b : matrix -> float;
  lattice_c : matrix -> float;
  lattice_alpha : matrix -> float;
  lattice_beta : matrix -> float;
  lattice_gamma : matrix -> float;
  lattice_volume : matrix -> float;
}.

(** ** The process: objects of the caller, standard output, files *)

Inductive Stream : Type :=
| Console
| StringIO (id : nat).

(** What the driver was seen to do, in order. *)
Inductive Event : Type :=
| EvGetAtoms (obj : nat)
| EvObserverTick
| EvFinalCapture
| EvWrite (path : string)
| EvGetStructure.

Section Process.
Context `{Toolkit}.

Record World := {
  heap : gmap nat Structure;        (* pymatgen objects, by address *)
  sys_stdout : Stream;              (* where [sys.stdout] points *)
  console : list string;            (* lines that reached the real stdout *)
  stringios : gmap nat (list string);  (* contents of the StringIO objects *)
  files : gmap string Blob;
  writable : string -> bool;        (* paths [open(_, "wb")] accepts *)
  trace : list Event;
}.

Definition set_heap (w : World) (h : gmap nat Structure) : World :=
  {| heap := h; sys_stdout := sys_stdout w; console := console w;
     stringios := stringios w; files := files w; writable := writable w;
     trace := trace w |}.

Definition set_sys_stdout (w : World) (s : Stream) : World :=
  {| heap := heap w; sys_stdout := s; console := console w;
     stringios := stringios w; files := files w; writable := writable w;
     trace := trace w |}.

Definition set_console (w : World) (c : list string) : World :=
  {| heap := heap w; sys_stdout := sys_stdout w; console := c;
     stringios := stringios w; files := files w; writable := writable w;
     trace := trace w |}.

Definition set_stringios (w : World) (b : gmap nat (list string)) : World :=
  {| heap := heap w; sys_stdout := sys_stdout w; console := console w;
     stringios := b; files := files w; writable := writable w;
     trace := trace w |}.

Definition set_files (w : World) (f : gmap string Blob) : World :=
  {| heap := heap w; sys_stdout := sys_stdout w; console := console w;
     stringios := stringios w; files := f; writable := writable w;
     trace := trace w |}.

Definition set_trace (w : World) (t : list Event) : World :=
  {| heap := heap w; sys_stdout := sys_stdout w; console := console w;
     stringios := stringios w; files := files w; writable := writable w;
     trace := t |}.

Definition emit (ev : Event) : StE World unit :=
  modify (fun w => set_trace w (trace w ++ [ev])).

(** Reading the object behind a reference the caller passed in. *)
Definition deref (obj : nat) : StE World Structure :=
  fun w => match heap w !! obj with
           | Some s => (Ok s, w)
           | None => (Raise (ExternalError "no such object"), w)
           end.

(** A new object, at an address not in use. *)
Definition alloc (s : Structure) : StE World nat :=
  fun w => let obj := fresh (dom (heap w)) in
           (Ok obj, set_heap w (<[obj := s]> (heap w))).

(** [io.StringIO()] *)
Definition StringIO_new : StE World nat :=
  fun w => let id := fresh (dom (stringios w)) in
           (Ok id, set_stringios w (<[id := []]> (stringios w))).

(** Writing a line to whatever [sys.stdout] is. *)
Definition print (line : string) : StE World unit :=
  modify (fun w =>
    match sys_stdout w with
    | Console => set_console w (console w ++ [line])
    | StringIO id =>
        set_stringios w
          (<[id := (default [] (stringios w !! id) ++ [line])%list]> (stringios w))
    end).

(** [with contextlib.redirect_stdout(stream): body].  The old target is
    put back when the block is left, normally or by an exception. *)
Definition redirect_stdout {A} (stream : nat) (body : StE World A)
  : StE World A :=
  fun w =>
    let old := sys_stdout w in
    let '(r, w') := body (set_sys_stdout w (StringIO stream)) in
    (r, set_sys_stdout w' old).

(** [with open(filename, "wb") as file: pickle.dump(out, file)]: the
    file is truncated and holds the pickle alone.  A path that cannot be
    opened makes [open] raise an OSError (of the subclass that fits),
    whose [filename] is the path; the model keeps that and not the
    errno text. *)
Definition open_wb_dump (filename : string) (out : Out.dict)
  : StE World unit :=
  fun w =>
    if writable w filename then
      (Ok tt, set_trace (set_files w (<[filename := pickle_dump out]> (files w)))
                        (trace w ++ [EvWrite filename]))
    else (Raise (OSError filename), w).

End Process.

(** ** TrajectoryObserver *)

Module TrajectoryObserver.

(** The observer keeps a reference to the atoms it watches.  In the
    driver that object is also the one inside the cell filter handed to
    the optimizer, so the model keeps it in one place, here. *)
Record t := {
  atoms : Atoms;
  energies : list float;
  forces : list matrix;
  stresses : list vec;
  atom_positions : list matrix;
  cells : list matrix;
}.

Definition __init__ (a : Atoms) : t :=
  {| atoms := a; energies := []; forces := []; stresses := [];
     atom_positions := []; cells := [] |}.

Definition set_atoms (self : t) (a : Atoms) : t :=
  {| atoms := a; energies := energies self; forces := forces self;
     stresses := stresses self; atom_positions := atom_positions self;
     cells := cells self |}.

Definition energies_append (x : float) : StE t unit :=
  modify (fun self =>
    {| atoms := atoms self; energies := energies self ++ [x];
       forces := forces self; stresses := stresses self;
       atom_positions := atom_positions self; cells := cells self |}).

Definition forces_append (x : matrix) : StE t unit :=
  modify (fun self =>
    {| atoms := atoms self; energies := energies self;
       forces := forces self ++ [x]; stresses := stresses self;
       atom_positions := atom_positions self; cells := cells self |}).

Definition stresses_append (x : vec) : StE t unit :=
  modify (fun self =>
    {| atoms := atoms self; energies := energies self;
       forces := forces self; stresses := stresses self ++ [x];
       atom_positions := atom_positions self; cells := cells self |}).

Definition atom_positions_append (x : matrix) : StE t unit :=
  modify (fun self =>
    {| atoms := atoms self; energies := energies self;
       forces := forces self; stresses := stresses self;
       atom_positions := atom_positions self ++ [x]; cells := cells self |}).

Definition cells_append (x : matrix) : StE t unit :=
  modify (fun self =>
    {| atoms := atoms self; energies := energies self;
       forces := forces self; stresses := stresses self;
       atom_positions := atom_positions self; cells := cells self ++ [x] |}).

(** [self.atoms.m()] for a getter [m] that may raise. *)
Definition on_atoms {A} (m : Atoms -> Result A) : StE t A :=
  fun self => (m (atoms self), self).

(** The five statements of [__call__], in order.  A getter that raises
    leaves the appends before it in place.  [float(...)] of the energy,
    a binary64 number already, is that number. *)
Definition __call__ : StE t unit :=
  e <- on_atoms get_potential_energy ;;
  energies_append e ;;
  f <- on_atoms get_forces ;;
  forces_append f ;;
  s <- on_atoms get_stress ;;
  stresses_append s ;;
  p <- on_atoms (fun a => Ok (get_positions a)) ;;
  atom_positions_append p ;;
  c <- on_atoms (fun a => Ok (get_cell a)) ;;
  cells_append c.

(** The tuple is built left to right: energies, forces, stresses, cells,
    atom_positions; the first failing lookup raises. *)
Definition __getitem__ (self : t) (item : Z)
  : Result (float * matrix * vec * matrix * matrix) :=
  match py_index (energies self) item with
  | Raise e => Raise e
  | Ok e =>
    match py_index (forces self) item with
    | Raise x => Raise x
    | Ok f =>
      match py_index (stresses self) item with
      | Raise x => Raise x
      | Ok s =>
        match py_index (cells self) item with
        | Raise x => Raise x
        | Ok c =>
          match py_index (atom_positions self) item with
          | Raise x => Raise x
          | Ok p => Ok (e, f, s, c, p)
          end
        end
      end
    end
  end.

Definition __len__ (self : t) : nat := length (energies self).

Section Save.
Context `{Toolkit}.

Definition out (self : t) : Out.dict :=
  {| Out.energy := energies self;
     Out.forces := forces self;
     Out.stresses := stresses self;
     Out.atom_positions := atom_positions self;
     Out.cell := cells self;
     Out.atomic_number := get_atomic_numbers (atoms self) |}.

Definition save (self : t) (filename : string) : StE World unit :=
  open_wb_dump filename (out self).

End Save.

End TrajectoryObserver.

(** ** RelaxCalc *)

(** The [optimizer] argument of the constructor: a string, [None], or any
    other object. *)
Inductive OptimizerArg : Type :=
| PyStr (name : string)
| PyNone
| PyObject (c : OptimizerClass).

(** Values of the returned dict: a reference to a pymatgen object or a
    float. *)
Inductive PyVal : Type :=
| VObject (obj : nat)
| VFloat (x : float).

Section Driver.
Context `{Toolkit}.

(** The attached observer is called with no arguments; the driver's
    [obs] is that same object. *)
Definition call_observer (obs : TrajectoryObserver.t)
  : StE World TrajectoryObserver.t :=
  fun w => match TrajectoryObserver.__call__ obs with
           | (Ok _, obs') => (Ok obs', w)
           | (Raise e, _) => (Raise e, w)
           end.

(** [optimizer.run(...)], action by action.  The atoms the optimizer
    moves are the ones the observer reads. *)
Fixpoint run (script : list OptAction) (obs : TrajectoryObserver.t)
  : StE World TrajectoryObserver.t :=
  match script with
  | [] => ret obs
  | OptSetPositions p :: rest =>
      a <- lift_result (set_positions (TrajectoryObserver.atoms obs) p) ;;
      run rest (TrajectoryObserver.set_atoms obs a)
  | OptSetCell c :: rest =>
      run rest (TrajectoryObserver.set_atoms obs
                  (set_cell (TrajectoryObserver.atoms obs) c))
  | OptLog line :: rest => print line ;; run rest obs
  | OptCallObservers :: rest =>
      emit EvObserverTick ;;
      obs' <- call_observer obs ;;
      run rest obs'
  | OptRaise e :: _ => raise e
  end.

(** [self.opt_class(atoms)] *)
Definition instantiate (opt_class : option PyCallable)
  : StE World OptimizerClass :=
  match opt_class with
  | None => raise (TypeError "'NoneType' object is not callable")
  | Some (AseClass o) => ret (ase_optimizer o)
  | Some (UserCallable c) => ret c
  end.

End Driver.

Module RelaxCalc.

Record t := {
  calculator : Calculator;
  opt_class : option PyCallable;
  fmax : float;
  interval : Z;
  steps : Z;
  traj_file : option string;
}.

(** Defaults of the keyword arguments. *)
Definition default_optimizer : OptimizerArg := PyStr "FIRE".
Definition default_fmax : float := 0x1.999999999999ap-4%float.
Definition default_steps : Z := 500.
Definition default_traj_file : option string := None.
Definition default_interval : Z := 1.

Definition __init__ (calculator : Calculator) (optimizer : OptimizerArg)
    (fmax : float) (steps : Z) (traj_file : option string) (interval : Z)
  : Result t :=
  match
    match optimizer with
    | PyStr name => Ok (AseClass <$> OPTIMIZERS !! name)
    | PyNone => Raise (ValueError "Optimizer cannot be None")
    | PyObject c => Ok (Some (UserCallable c))
    end
  with
  | Raise e => Raise e
  | Ok optimizer_obj =>
      Ok {| calculator := calculator; opt_class := optimizer_obj;
            fmax := fmax; interval := interval; steps := steps;
            traj_file := traj_file |}
  end.

Section Calc.
Context `{Toolkit}.

(** Lines 137-147 of [calc]: up to the end of the [with] block.  The
    result is the observer, whose [atoms] is the relaxed object
    ([atoms.atoms] of the filter). *)
Definition relax (self : t) (structure : nat)
  : StE World TrajectoryObserver.t :=
  s <- deref structure ;;
  emit (EvGetAtoms structure) ;;
  atoms <- lift_result (get_atoms s) ;;
  let atoms := set_calculator atoms (calculator self) in
  stream <- StringIO_new ;;
  redirect_stdout stream (
    let obs := TrajectoryObserver.__init__ atoms in
    optimizer <- instantiate (opt_class self) ;;
    obs <- run (opt_run optimizer atoms (interval self) (fmax self)
                  (steps self)) obs ;;
    emit EvFinalCapture ;;
    call_observer obs).

Definition calc (self : t) (structure : nat)
  : StE World (gmap string PyVal) :=
  obs <- relax self structure ;;
  match traj_file self with
   | Some filename => TrajectoryObserver.save obs filename
   | None => ret tt
   end ;;
  let atoms := TrajectoryObserver.atoms obs in
  emit EvGetStructure ;;
  final_structure <- lift_result (get_structure atoms) ;;
  obj <- alloc final_structure ;;
  let lattice := lattice final_structure in
  ret (<["final_structure" := VObject obj]> (
       <["a" := VFloat (lattice_a lattice)]> (
       <["b" := VFloat (lattice_b lattice)]> (
       <["c" := VFloat (lattice_c lattice)]> (
       <["alpha" := VFloat (lattice_alpha lattice)]> (
       <["beta" := VFloat (lattice_beta lattice)]> (
       <["gamma" := VFloat (lattice_gamma lattice)]> (
       <["volume" := VFloat (lattice_volume lattice)]> ∅)))))))).

End Calc.

End RelaxCalc.

(** ** ASE's optimizer loop (external, modelled by contract)

    [Optimizer.run] and [Dynamics.irun] of ASE 3.22 with one attached
    observer: the forces are read first; the observers are called before
    the first step and after every step, each time the step count is a
    multiple of the interval; the loop ends on convergence or when the
    step count reaches the cap, which is [steps] unless [steps] is 0, a
    value [run] takes for no cap given. *)
Section Dynamics.
Variable step : Atoms -> Atoms.
Variable converged : Atoms -> float -> bool.
Variable log_line : Z -> string.

Definition observer_due (interval nsteps : Z) : bool :=
  if 0 <? interval then nsteps mod interval =? 0
  else nsteps =? Z.abs interval.

Definition call_observers (interval nsteps : Z) : list OptAction :=
  if observer_due interval nsteps then [OptCallObservers] else [].

Fixpoint irun_loop (budget : nat) (nsteps : Z) (a : Atoms)
    (interval : Z) (fmax : float) : list OptAction :=
  match budget with
  | O => []
  | S budget' =>
      if converged a fmax then []
      else
        let a' := step a in
        (OptSetPositions (get_positions a')
           :: OptSetCell (get_cell a')
           :: OptLog (log_line (nsteps + 1))
           :: call_observers interval (nsteps + 1)
           ++ irun_loop budget' (nsteps + 1) a' interval fmax)%list
  end.

Definition default_max_steps : Z := 100000000.

(** [if steps: self.max_steps = steps] *)
Definition max_steps (steps : Z) : Z :=
  if steps =? 0 then default_max_steps else steps.

Definition irun (a : Atoms) (interval : Z) (fmax : float) (steps : Z)
  : list OptAction :=
  match get_forces a with
  | Raise e => [OptRaise e]
  | Ok _ =>
      (OptLog (log_line 0)
         :: call_observers interval 0
         ++ irun_loop (Z.to_nat (max_steps steps)) 0 a interval fmax)%list
  end.

Definition dynamics : OptimizerClass := {| opt_run := irun |}.
End Dynamics.

(** ** A small toolkit to run the model on *)

Module Demo.

(** A length-prefixed serializer standing in for pickle. *)
Inductive token : Type :=
| TLen (n : nat)
| TFloat (x : float)
| TInt (z : Z).

Definition parser (A : Type) : Type := list token -> option (A * list token).

Definition enc_float (x : float) : list token := [TFloat x].
Definition dec_float : parser float :=
  fun ts => match ts with TFloat x :: ts' => Some (x, ts') | _ => None end.

Definition enc_int (z : Z) : list token := [TInt z].
Definition dec_int : parser Z :=
  fun ts => match ts with TInt z :: ts' => Some (z, ts') | _ => None end.

Definition enc_list {A} (enc : A -> list token) (l : list A) : list token :=
  TLen (length l) :: concat (map enc l).

Fixpoint dec_items {A} (dec : parser A) (n : nat) : parser (list A) :=
  fun ts =>
    match n with
    | O => Some ([], ts)
    | S n' =>
        match dec ts with
        | Some (x, ts') =>
            match dec_items dec n' ts' with
            | Some (xs, ts'') => Some (x :: xs, ts'')
            | None => None
            end
        | None => None
        end
    end.

Definition dec_list {A} (dec : parser A) : parser (list A) :=
  fun ts => match ts with TLen n :: ts' => dec_items dec n ts' | _ => None end.

Definition enc_vec : vec -> list token := enc_list enc_float.
Definition dec_vec : parser vec := dec_list dec_float.
Definition enc_matrix : matrix -> list token := enc_list enc_vec.
Definition dec_matrix : parser matrix := dec_list dec_vec.

Definition dump (d : Out.dict) : list token :=
  (enc_list enc_float (Out.energy d)
   ++ enc_list enc_matrix (Out.forces d)
   ++ enc_list enc_vec (Out.stresses d)
   ++ enc_list enc_matrix (Out.atom_positions d)
   ++ enc_list enc_matrix (Out.cell d)
   ++ enc_list enc_int (Out.atomic_number d))%list.

Definition load (ts : list token) : Result Out.dict :=
  match dec_list dec_float ts with
  | Some (e, ts1) =>
    match dec_list dec_matrix ts1 with
    | Some (f, ts2) =>
      match dec_list dec_vec ts2 with
      | Some (s, ts3) =>
        match dec_list dec_matrix ts3 with
        | Some (p, ts4) =>
          match dec_list dec_matrix ts4 with
          | Some (c, ts5) =>
            match dec_list dec_int ts5 with
            | Some (z, []) =>
                Ok {| Out.energy := e; Out.forces := f; Out.stresses := s;
                      Out.atom_positions := p; Out.cell := c;
                      Out.atomic_number := z |}
            | _ => Raise (ExternalError "UnpicklingError")
            end
          | None => Raise (ExternalError "UnpicklingError")
          end
        | None => Raise (ExternalError "UnpicklingError")
        end
      | None => Raise (ExternalError "UnpicklingError")
      end
    | None => Raise (ExternalError "UnpicklingError")
    end
  | None => Raise (ExternalError "UnpicklingError")
  end.

Definition atoms_of (s : Structure) : Atoms :=
  {| atom_list := map (fun x => {| number := species x; position := coords x |})
                      (sites s);
     cell := lattice s; calc := None |}.

Definition structure_of (a : Atoms) : Structure :=
  {| lattice := get_cell a;
     sites := map (fun x => {| species := number x; coords := position x |})
                  (atom_list a) |}.

Definition norm (v : vec) : float :=
  PrimFloat.sqrt (fold_right (fun x acc => (x * x + acc)%float) 0%float v).

Definition row (m : matrix) (i : nat) : vec := default [] (m !! i).

(** An optimizer that takes its steps without moving anything and never
    reports convergence: it always runs to the step cap. *)
Definition plodder : OptimizerClass :=
  dynamics (fun a => a) (fun _ _ => false) (fun _ => "step").

#[export] Instance toolkit : Toolkit := {|
  Blob := list token;
  pickle_dump := dump;
  pickle_load := load;
  ase_optimizer := fun _ => plodder;
  get_atoms := fun s => Ok (atoms_of s);
  get_structure := fun a => Ok (structure_of a);
  lattice_a := fun m => norm (row m 0);
  lattice_b := fun m => norm (row m 1);
  lattice_c := fun m => norm (row m 2);
  lattice_alpha := fun _ => 90%float;
  lattice_beta := fun _ => 90%float;
  lattice_gamma := fun _ => 90%float;
  lattice_volume := fun m => (norm (row m 0) * norm (row m 1) * norm (row m 2))%float;
|}.

(** A calculator that finds every geometry at rest. *)
Definition flat : Calculator :=
  {| calc_energy := fun _ _ => Ok 0%float;
     calc_forces := fun ats _ => Ok (map (fun _ => [0; 0; 0]%float) ats);
     calc_stress := fun _ _ => Ok [0; 0; 0; 0; 0; 0]%float |}.

(** A calculator without a stress implementation. *)
Definition no_stress : Calculator :=
  {| calc_energy := fun _ _ => Ok 0%float;
     calc_forces := fun ats _ => Ok (map (fun _ => [0; 0; 0]%float) ats);
     calc_stress := fun _ _ =>
       Raise (PropertyNotImplementedError "stress property not implemented") |}.

(** Two atoms in an orthorhombic box. *)
Definition box : Structure :=
  {| lattice := [[3; 0; 0]; [0; 4; 0]; [0; 0; 5]]%float;
     sites := [ {| species := 14; coords := [0; 0; 0]%float |};
                {| species := 8; coords := [1; 1; 1]%float |} ] |}.

Definition world : World :=
  {| heap := {[ 0%nat := box ]};
     sys_stdout := Console;
     console := ["hello"];
     stringios := ∅;
     files := {[ "old.pkl" := [TLen 7] ]};
     writable := fun path => negb (String.eqb path "/proc/locked");
     trace := [] |}.

(** The box with a calculator, and an observer after one capture. *)
Definition resting : Atoms := set_calculator (atoms_of box) flat.
Definition unstressed : Atoms := set_calculator (atoms_of box) no_stress.

Definition once : TrajectoryObserver.t :=
  snd (TrajectoryObserver.__call__ (TrajectoryObserver.__init__ resting)).

(** A driver on the resting calculator: BFGS, capped at three steps,
    observed every second step. *)
Definition relaxer (traj_file : option string) : RelaxCalc.t :=
  {| RelaxCalc.calculator := flat;
     RelaxCalc.opt_class := Some (AseClass BFGS);
     RelaxCalc.fmax := RelaxCalc.default_fmax;
     RelaxCalc.interval := 2;
     RelaxCalc.steps := 3;
     RelaxCalc.traj_file := traj_file |}.

Definition relaxed : Result TrajectoryObserver.t * World :=
  RelaxCalc.relax (relaxer None) 0%nat world.

Definition relaxed_obs : TrajectoryObserver.t :=
  match fst relaxed with Ok obs => obs | Raise _ => once end.

(** The driver the constructor builds for the name "Adam". *)
Definition adam : RelaxCalc.t :=
  {| RelaxCalc.calculator := flat;
     RelaxCalc.opt_class := None;
     RelaxCalc.fmax := RelaxCalc.default_fmax;
     RelaxCalc.interval := RelaxCalc.default_interval;
     RelaxCalc.steps := RelaxCalc.default_steps;
     RelaxCalc.traj_file := RelaxCalc.default_traj_file |}.

Definition called (traj_file : option string)
  : Result (gmap string PyVal) * World :=
  RelaxCalc.calc (relaxer traj_file) 0%nat world.

Definition returned (traj_file : option string) : gmap string PyVal :=
  match fst (called traj_file) with Ok d => d | Raise _ => ∅ end.

(** The observer after one capture, now watching the atoms whose
    calculator has no stress. *)
Definition strained : TrajectoryObserver.t :=
  TrajectoryObserver.set_atoms once unstressed.

(** The record a capture leaves when the stress cannot be read. *)
Definition torn : TrajectoryObserver.t :=
  snd (TrajectoryObserver.__call__ (TrajectoryObserver.__init__ unstressed)).

(** The driver of [relaxer] on the calculator that has no stress. *)
Definition stressless (traj_file : option string) : RelaxCalc.t :=
  {| RelaxCalc.calculator := no_stress;
     RelaxCalc.opt_class := Some (AseClass BFGS);
     RelaxCalc.fmax := RelaxCalc.default_fmax;
     RelaxCalc.interval := 2;
     RelaxCalc.steps := 3;
     RelaxCalc.traj_file := traj_file |}.

(** A structure without sites. *)
Definition vacuum : Structure :=
  {| lattice := [[1; 0; 0]; [0; 1; 0]; [0; 0; 1]]%float; sites := [] |}.

(** A toolkit whose adaptor refuses a structure without sites and cannot
    convert back. *)
Definition brittle : Toolkit := {|
  Blob := list token;
  pickle_dump := dump;
  pickle_load := load;
  ase_optimizer := fun _ => plodder;
  get_atoms := fun s =>
    match sites s with
    | [] => Raise (ValueError "no sites")
    | _ => Ok (atoms_of s)
    end;
  get_structure := fun _ => Raise (ValueError "cannot convert");
  lattice_a := fun m => norm (row m 0);
  lattice_b := fun m => norm (row m 1);
  lattice_c := fun m => norm (row m 2);
  lattice_alpha := fun _ => 90%float;
  lattice_beta := fun _ => 90%float;
  lattice_gamma := fun _ => 90%float;
  lattice_volume := fun m => (norm (row m 0) * norm (row m 1) * norm (row m 2))%float;
|}.

Definition brittle_world : @World brittle :=
  {| heap := <[1%nat := vacuum]> {[ 0%nat := box ]};
     sys_stdout := Console;
     console := [];
     stringios := ∅;
     files := ∅;
     writable := fun _ => true;
     trace := [] |}.

Definition brittle_relaxed : Result TrajectoryObserver.t * @World brittle :=
  RelaxCalc.relax (H := brittle) (relaxer (Some "t.pkl")) 0%nat brittle_world.

Definition brittle_obs : TrajectoryObserver.t :=
  match fst brittle_relaxed with Ok obs => obs | Raise _ => once end.

End Demo.

(** * Properties *)

(** ** Vocabulary *)

(** The five sequences of an observer run in parallel. *)
Definition aligned (obs : TrajectoryObserver.t) : Prop :=
  length (TrajectoryObserver.forces obs) = TrajectoryObserver.__len__ obs
  /\ length (TrajectoryObserver.stresses obs) = TrajectoryObserver.__len__ obs
  /\ length (TrajectoryObserver.atom_positions obs) = TrajectoryObserver.__len__ obs
  /\ length (TrajectoryObserver.cells obs) = TrajectoryObserver.__len__ obs.


(** The index Python reads for [l[i]] in a sequence of length [n]. *)
Definition py_position (n i : Z) : nat :=
  Z.to_nat (if i <? 0 then i + n else i).

Definition in_range (n i : Z) : bool := (- n <=? i) && (i <? n).

(** The observer calls an optimizer makes in a run that is not cut short. *)
Fixpoint tick_count (script : list OptAction) : nat :=
  match script with
  | [] => 0
  | OptCallObservers :: rest => S (tick_count rest)
  | _ :: rest => tick_count rest
  end.

(** The lines an optimizer logs in a run that is not cut short. *)
Fixpoint log_lines (script : list OptAction) : list string :=
  match script with
  | [] => []
  | OptLog line :: rest => line :: log_lines rest
  | _ :: rest => log_lines rest
  end.

Definition is_write (ev : Event) : bool :=
  match ev with EvWrite _ => true | _ => false end.

(** No event of the list is a file write. *)
Definition quiet (evs : list Event) : Prop := Forall (fun ev => is_write ev = false) evs.

(** The vocabulary of the driver. *)

Section DriverVocabulary.
Context `{Toolkit}.
Import TrajectoryObserver.

(** The optimizer [opt_class] yields when called, if it can be called. *)
Definition resolve (opt_class : option PyCallable) : option OptimizerClass :=
  match opt_class with
  | None => None
  | Some (AseClass o) => Some (ase_optimizer o)
  | Some (UserCallable c) => Some c
  end.

(** The body of the [with] block of [calc], for the atoms it is
    entered with. *)
Definition block (self : RelaxCalc.t) (atoms : Atoms) : StE World t :=
  let obs := __init__ atoms in
  optimizer <- instantiate (RelaxCalc.opt_class self) ;;
  obs <- run (opt_run optimizer atoms (RelaxCalc.interval self)
                (RelaxCalc.fmax self) (RelaxCalc.steps self)) obs ;;
  emit EvFinalCapture ;;
  call_observer obs.

(** The world in which the [with] block of [relax] is entered. *)
Definition entered (w : World) (structure : nat) : World :=
  let w1 := set_trace w (trace w ++ [EvGetAtoms structure]) in
  let id := fresh (dom (stringios w)) in
  set_sys_stdout (set_stringios w1 (<[id := []]> (stringios w))) (StringIO id).

(** The world after the optional save of [calc], when it went through. *)
Definition saved (self : RelaxCalc.t) (obs : t) (w1 w2 : World) : Prop :=
  match RelaxCalc.traj_file self with
  | None => w2 = w1
  | Some filename =>
      writable w1 filename = true
      /\ w2 = set_trace
                (set_files w1 (<[filename := pickle_dump (out obs)]> (files w1)))
                (trace w1 ++ [EvWrite filename])
  end.

(** The dict [calc] returns for the final structure [fs] stored at
    [obj]. *)
Definition result_dict (obj : nat) (fs : Structure) : gmap string PyVal :=
  <["final_structure" := VObject obj]> (
  <["a" := VFloat (lattice_a (lattice fs))]> (
  <["b" := VFloat (lattice_b (lattice fs))]> (
  <["c" := VFloat (lattice_c (lattice fs))]> (
  <["alpha" := VFloat (lattice_alpha (lattice fs))]> (
  <["beta" := VFloat (lattice_beta (lattice fs))]> (
  <["gamma" := VFloat (lattice_gamma (lattice fs))]> (
  <["volume" := VFloat (lattice_volume (lattice fs))]> ∅))))))).

End DriverVocabulary.

(** The keys of the dict [calc] returns. *)
Definition result_keys : gset string :=
  list_to_set ["final_structure"; "a"; "b"; "c"; "alpha"; "beta"; "gamma"; "volume"].

(** A decoder undoes an encoder, whatever follows in the input. *)
Definition sound {A} (enc : A -> list Demo.token) (dec : Demo.parser A) : Prop :=
  forall x rest, dec (enc x ++ rest)%list = Some (x, rest).

(** The observers one gets from a new one by captures of either outcome,
    with the watched atoms moving in between. *)
Inductive visited : TrajectoryObserver.t -> Prop :=
| visit_init (a : Atoms) :
    visited (TrajectoryObserver.__init__ a)
| visit_capture (obs obs' : TrajectoryObserver.t) (r : Result unit) :
    visited obs ->
    TrajectoryObserver.__call__ obs = (r, obs') ->
    visited obs'
| visit_move (obs : TrajectoryObserver.t) (a : Atoms) :
    visited obs ->
    visited (TrajectoryObserver.set_atoms obs a).

(** The five sequences in the order [__call__] extends them: none is
    longer than the one before it, and the last two go together. *)
Definition staggered (obs : TrajectoryObserver.t) : Prop :=
  (length (TrajectoryObserver.cells obs)
   = length (TrajectoryObserver.atom_positions obs)
   /\ length (TrajectoryObserver.atom_positions obs)
      <= length (TrajectoryObserver.stresses obs)
   /\ length (TrajectoryObserver.stresses obs)
      <= length (TrajectoryObserver.forces obs)
   /\ length (TrajectoryObserver.forces obs)
      <= length (TrajectoryObserver.energies obs))%nat.

(** A calculator one of whose three results is never available. *)
Definition blind (c : Calculator) : Prop :=
  (forall ats cl, is_ok (calc_energy c ats cl) = false)
  \/ (forall ats cl, is_ok (calc_forces c ats cl) = false)
  \/ (forall ats cl, is_ok (calc_stress c ats cl) = false).

(** The keys of [OPTIMIZERS]. *)
Definition optimizer_names : list string :=
  ["FIRE"; "BFGS"; "LBFGS"; "LBFGSLineSearch"; "MDMin"; "SciPyFminCG";
   "SciPyFminBFGS"; "BFGSLineSearch"].

(** The record the specification has persisted: the five sequences of
    the observer, each in the order of the snapshots, and the atomic
    numbers of its atoms. *)
Definition trajectory_record (obs : TrajectoryObserver.t) : Out.dict :=
  {| Out.energy := TrajectoryObserver.energies obs;
     Out.forces := TrajectoryObserver.forces obs;
     Out.stresses := TrajectoryObserver.stresses obs;
     Out.atom_positions := TrajectoryObserver.atom_positions obs;
     Out.cell := TrajectoryObserver.cells obs;
     Out.atomic_number := get_atomic_numbers (TrajectoryObserver.atoms obs) |}.

(** The observers one gets from a new one by captures that returned,
    the watched atoms moving in between but keeping the calculator [C]. *)
Inductive tracked (C : Calculator) : TrajectoryObserver.t -> Prop :=
| track_init (a : Atoms) :
    calc a = Some C ->
    tracked C (TrajectoryObserver.__init__ a)
| track_capture (obs obs' : TrajectoryObserver.t) :
    tracked C obs ->
    TrajectoryObserver.__call__ obs = (Ok tt, obs') ->
    tracked C obs'
| track_move (obs : TrajectoryObserver.t) (a : Atoms) :
    tracked C obs ->
    calc a = Some C ->
    tracked C (TrajectoryObserver.set_atoms obs a).

(** The tuple is what the getters of the atoms [a] return. *)
Definition snapshot_of (a : Atoms) (e : float) (f : matrix) (s : vec)
    (c p : matrix) : Prop :=
  get_potential_energy a = Ok e
  /\ get_forces a = Ok f
  /\ get_stress a = Ok s
  /\ c = get_cell a
  /\ p = get_positions a.

(** Every complete row of the five sequences was read off one state of
    the atoms, a state for which [P] holds. *)
Definition faithful (P : Atoms -> Prop) (obs : TrajectoryObserver.t) : Prop :=
  forall k e f s c p,
    TrajectoryObserver.energies obs !! k = Some e ->
    TrajectoryObserver.forces obs !! k = Some f ->
    TrajectoryObserver.stresses obs !! k = Some s ->
    TrajectoryObserver.cells obs !! k = Some c ->
    TrajectoryObserver.atom_positions obs !! k = Some p ->
    exists a, P a /\ snapshot_of a e f s c p.

(** ** The observer *)

Section ObserverFacts.
Import TrajectoryObserver.

Lemma init_aligned (a : Atoms) : aligned (__init__ a).
Proof. repeat split. Qed.


(** A capture that returns has read the three calculator results and
    appended them, with the positions and the cell, one each. *)
Lemma call_ok_inv (obs obs' : t) (r : unit) :
  __call__ obs = (Ok r, obs') ->
  exists e f s,
    get_potential_energy (atoms obs) = Ok e
    /\ get_forces (atoms obs) = Ok f
    /\ get_stress (atoms obs) = Ok s
    /\ obs' = {| atoms := atoms obs;
                 energies := energies obs ++ [e];
                 forces := forces obs ++ [f];
                 stresses := stresses obs ++ [s];
                 atom_positions := atom_positions obs ++ [get_positions (atoms obs)];
                 cells := cells obs ++ [get_cell (atoms obs)] |}%list.
Proof.
  unfold __call__, bind, on_atoms, energies_append, forces_append,
    stresses_append, atom_positions_append, cells_append, modify.
  cbn.
  destruct (get_potential_energy (atoms obs)) as [e|x]; [|discriminate].
  destruct (get_forces (atoms obs)) as [f|x]; [|discriminate].
  destruct (get_stress (atoms obs)) as [s|x]; [|discriminate].
  intros Heq. injection Heq as _ <-.
  exists e, f, s. repeat split.
Qed.

Lemma call_ok_aligned (obs obs' : t) (r : unit) :
  __call__ obs = (Ok r, obs') -> aligned obs -> aligned obs'.
Proof.
  intros Hc (Hf & Hs & Hp & Hc').
  destruct (call_ok_inv _ _ _ Hc) as (e & f & s & _ & _ & _ & ->).
  unfold aligned, __len__ in *. cbn.
  rewrite !length_app. cbn. repeat split; lia.
Qed.

Lemma call_ok_len (obs obs' : t) (r : unit) :
  __call__ obs = (Ok r, obs') -> __len__ obs' = S (__len__ obs).
Proof.
  intros Hc.
  destruct (call_ok_inv _ _ _ Hc) as (e & f & s & _ & _ & _ & ->).
  unfold __len__. cbn. rewrite length_app. cbn. lia.
Qed.


(** Indexing, as Python does it. *)
Lemma py_index_in {A} (l : list A) (i : Z) :
  in_range (Z.of_nat (length l)) i = true ->
  exists x, py_index l i = Ok x
            /\ l !! py_position (Z.of_nat (length l)) i = Some x.
Proof.
  unfold in_range, py_index, py_position. intros Hr.
  apply andb_true_iff in Hr as [Hlo Hhi].
  apply Z.leb_le in Hlo. apply Z.ltb_lt in Hhi.
  set (n := Z.of_nat (length l)) in *.
  set (j := if i <? 0 then i + n else i).
  assert (Hj : 0 <= j < n).
  { subst j. destruct (Z.ltb_spec i 0); lia. }
  replace ((0 <=? j) && (j <? n)) with true
    by (symmetry; apply andb_true_iff; split;
        [apply Z.leb_le | apply Z.ltb_lt]; lia).
  destruct (l !! Z.to_nat j) as [x|] eqn:Hl.
  - exists x. split; reflexivity.
  - apply lookup_ge_None in Hl. subst n. lia.
Qed.

Lemma py_index_out {A} (l : list A) (i : Z) :
  in_range (Z.of_nat (length l)) i = false ->
  py_index l i = Raise (index_error i).
Proof.
  unfold in_range, py_index. intros Hr.
  set (n := Z.of_nat (length l)) in *.
  set (j := if i <? 0 then i + n else i).
  destruct ((0 <=? j) && (j <? n)) eqn:Hj; [|reflexivity].
  exfalso.
  apply andb_true_iff in Hj as [Hlo Hhi].
  apply Z.leb_le in Hlo. apply Z.ltb_lt in Hhi.
  apply andb_false_iff in Hr as [Hr|Hr];
    [apply Z.leb_gt in Hr | apply Z.ltb_ge in Hr];
    subst j; destruct (Z.ltb_spec i 0); lia.
Qed.

End ObserverFacts.

Section ObserverClaims.
Import TrajectoryObserver.




(** C6, as amended: [get(index)] for an index within [-len, len), on a
    record whose five sequences run in parallel, returns the tuple
    (energy, forces, stress, cell, positions) of the snapshot at that
    index, counted from the end when negative; for any other index, on
    any record, it raises IndexError. *)
Theorem getitem_snapshot (obs : t) (item : Z) :
  let n := Z.of_nat (__len__ obs) in
  if in_range n item then
    aligned obs ->
    exists e f s c p,
      __getitem__ obs item = Ok (e, f, s, c, p)
      /\ energies obs !! py_position n item = Some e
      /\ forces obs !! py_position n item = Some f
      /\ stresses obs !! py_position n item = Some s
      /\ cells obs !! py_position n item = Some c
      /\ atom_positions obs !! py_position n item = Some p
  else
    exists msg, __getitem__ obs item = Raise (IndexError msg).
Proof.
  intros n.
  destruct (in_range n item) eqn:Hr.
  - intros (Hf & Hs & Hp & Hc).
    unfold __getitem__. subst n. unfold __len__ in *.
    destruct (py_index_in (energies obs) item Hr) as (e & -> & He).
    destruct (py_index_in (forces obs) item) as (f & -> & Hf');
      [rewrite Hf; exact Hr|].
    destruct (py_index_in (stresses obs) item) as (s & -> & Hs');
      [rewrite Hs; exact Hr|].
    destruct (py_index_in (cells obs) item) as (c & -> & Hc');
      [rewrite Hc; exact Hr|].
    destruct (py_index_in (atom_positions obs) item) as (p & -> & Hp');
      [rewrite Hp; exact Hr|].
    rewrite Hf in Hf'. rewrite Hs in Hs'. rewrite Hc in Hc'.
    rewrite Hp in Hp'.
    exists e, f, s, c, p. repeat split; assumption.
  - unfold __getitem__. subst n. unfold __len__ in Hr.
    rewrite (py_index_out (energies obs) item Hr).
    unfold index_error. destruct (_ && _); eexists; reflexivity.
Qed.

Lemma getitem_snapshot_witness :
  aligned Demo.once
  /\ (exists e f s c p,
         __getitem__ Demo.once (-1) = Ok (e, f, s, c, p)
         /\ energies Demo.once !! 0%nat = Some e
         /\ forces Demo.once !! 0%nat = Some f
         /\ stresses Demo.once !! 0%nat = Some s
         /\ cells Demo.once !! 0%nat = Some c
         /\ atom_positions Demo.once !! 0%nat = Some p)
  /\ (exists msg, __getitem__ Demo.once 1 = Raise (IndexError msg))
  /\ (exists msg, __getitem__ Demo.torn (-2) = Raise (IndexError msg)).
Proof.
  assert (Hal : aligned Demo.once) by (repeat split).
  split; [exact Hal|].
  split; [|split].
  - exact (getitem_snapshot Demo.once (-1) Hal).
  - exact (getitem_snapshot Demo.once 1).
  - exact (getitem_snapshot Demo.torn (-2)).
Defined.

(** C6, as stated, fails: on the record a capture left when it raised at
    the stress, the length is 1 and index 0 is within range, yet
    [get(0)] raises IndexError, no snapshot being complete. *)
Lemma getitem_in_range_raises :
  visited Demo.torn
  /\ __len__ Demo.torn = 1%nat
  /\ in_range (Z.of_nat (__len__ Demo.torn)) 0 = true
  /\ __getitem__ Demo.torn 0 = Raise (IndexError "list index out of range").
Proof.
  split.
  - eapply visit_capture; [apply (visit_init Demo.unstressed)|].
    apply surjective_pairing.
  - split; [reflexivity|]. split; reflexivity.
Qed.

End ObserverClaims.

(** ** The optimizer run *)

Section RunFacts.
Context `{Toolkit}.
Import TrajectoryObserver.

Ltac step_run Hrun :=
  cbn [run] in Hrun;
  unfold bind, ret, raise, lift_result, emit, print, modify,
    call_observer in Hrun;
  cbn beta iota in Hrun.

(** A run touches neither the caller's objects nor the files, and leaves
    [sys.stdout] where it points. *)
Lemma run_static (script : list OptAction) :
  forall obs w r w',
    run script obs w = (r, w') ->
    heap w' = heap w /\ files w' = files w
    /\ writable w' = writable w /\ sys_stdout w' = sys_stdout w.
Proof.
  induction script as [|act rest IH]; intros obs w r w' Hrun.
  - step_run Hrun. injection Hrun as _ <-. auto.
  - destruct act; step_run Hrun.
    + destruct (set_positions (atoms obs) p) as [a|e].
      * eapply IH; eauto.
      * injection Hrun as _ <-. auto.
    + eapply IH; eauto.
    + apply IH in Hrun. destruct (sys_stdout w) eqn:Hs; cbn in Hrun;
        rewrite ?Hs in Hrun; exact Hrun.
    + destruct (__call__ obs) as [[u|e] obs1].
      * apply IH in Hrun. exact Hrun.
      * injection Hrun as _ <-. auto.
    + injection Hrun as _ <-. auto.
Qed.

(** The events of a run are its observer ticks; when it returns, there
    are as many as the script has, each one added a snapshot, and the
    sequences stayed parallel. *)
Lemma run_ticks (script : list OptAction) :
  forall obs w r w',
    run script obs w = (r, w') ->
    exists k,
      trace w' = (trace w ++ repeat EvObserverTick k)%list
      /\ forall obs',
           r = Ok obs' ->
           k = tick_count script
           /\ __len__ obs' = (__len__ obs + k)%nat
           /\ (aligned obs -> aligned obs').
Proof.
  induction script as [|act rest IH]; intros obs w r w' Hrun.
  - step_run Hrun. injection Hrun as <- <-. exists 0%nat.
    split; [cbn; now rewrite app_nil_r|].
    intros obs' [= <-]. split; [reflexivity|]. split; [lia | auto].
  - destruct act; step_run Hrun.
    + destruct (set_positions (atoms obs) p) as [a|e].
      * apply IH in Hrun as (k & Ht & Hok). exists k. split; [exact Ht|].
        intros obs' Hr. destruct (Hok obs' Hr) as (Hk & Hl & Hal).
        split; [exact Hk | split; [exact Hl | exact Hal]].
      * injection Hrun as <- <-. exists 0%nat.
        split; [cbn; now rewrite app_nil_r|]. intros obs' [=].
    + apply IH in Hrun as (k & Ht & Hok). exists k. split; [exact Ht|].
      intros obs' Hr. destruct (Hok obs' Hr) as (Hk & Hl & Hal).
      split; [exact Hk | split; [exact Hl | exact Hal]].
    + apply IH in Hrun as (k & Ht & Hok). exists k. split.
      * rewrite Ht. destruct (sys_stdout w); reflexivity.
      * exact Hok.
    + destruct (__call__ obs) as [[[]|e] obs1] eqn:Hc.
      * apply IH in Hrun as (k & Ht & Hok). exists (S k). split.
        -- rewrite Ht. cbn. rewrite <- app_assoc. reflexivity.
        -- intros obs' Hr. destruct (Hok obs' Hr) as (Hk & Hl & Hal).
           rewrite (call_ok_len _ _ _ Hc) in Hl.
           split; [cbn; lia | split; [lia |]].
           intros Hobs. apply Hal. eapply call_ok_aligned; eauto.
      * injection Hrun as <- <-. exists 1%nat. split; [reflexivity|].
        intros obs' [=].
    + injection Hrun as <- <-. exists 0%nat.
      split; [cbn; now rewrite app_nil_r|]. intros obs' [=].
Qed.

(** While [sys.stdout] is a StringIO, a run writes nothing to the
    console or to any other StringIO. *)
Lemma run_captured (script : list OptAction) (id : nat) :
  forall obs w r w',
    run script obs w = (r, w') ->
    sys_stdout w = StringIO id ->
    console w' = console w
    /\ forall id', id' <> id -> stringios w' !! id' = stringios w !! id'.
Proof.
  induction script as [|act rest IH]; intros obs w r w' Hrun Hs.
  - step_run Hrun. injection Hrun as _ <-. auto.
  - destruct act; step_run Hrun.
    + destruct (set_positions (atoms obs) p) as [a|e].
      * eapply IH; eauto.
      * injection Hrun as _ <-. auto.
    + eapply IH; eauto.
    + rewrite Hs in Hrun. apply IH in Hrun; [|exact Hs].
      destruct Hrun as [Hc Hb]. split; [exact Hc|].
      intros id' Hne. rewrite (Hb id' Hne). cbn.
      apply lookup_insert_ne. congruence.
    + destruct (__call__ obs) as [[u|e] obs1].
      * apply IH in Hrun; [|exact Hs]. exact Hrun.
      * injection Hrun as _ <-. auto.
    + injection Hrun as _ <-. auto.
Qed.

End RunFacts.

(** ** The driver *)

Section RelaxFacts.
Context `{Toolkit}.
Import TrajectoryObserver.

Lemma relax_unfold (self : RelaxCalc.t) (structure : nat) :
  RelaxCalc.relax self structure =
  (s <- deref structure ;;
   emit (EvGetAtoms structure) ;;
   atoms <- lift_result (get_atoms s) ;;
   stream <- StringIO_new ;;
   redirect_stdout stream
     (block self (set_calculator atoms (RelaxCalc.calculator self)))).
Proof. reflexivity. Qed.

Lemma quiet_ticks (k : nat) : quiet (repeat EvObserverTick k).
Proof. induction k; constructor; auto. Qed.

Lemma quiet_app (xs ys : list Event) : quiet xs -> quiet ys -> quiet (xs ++ ys).
Proof. intros Hx Hy. apply Forall_app; split; assumption. Qed.

(** The ways through the block: the optimizer cannot be built; the run
    raises; the run returns and the final capture is made. *)
Lemma block_inv (self : RelaxCalc.t) (a : Atoms) (w w' : World) (r : Result t) :
  block self a w = (r, w') ->
  (resolve (RelaxCalc.opt_class self) = None
   /\ r = Raise (TypeError "'NoneType' object is not callable") /\ w' = w)
  \/ exists opt rr w1,
       resolve (RelaxCalc.opt_class self) = Some opt
       /\ run (opt_run opt a (RelaxCalc.interval self) (RelaxCalc.fmax self)
                 (RelaxCalc.steps self)) (__init__ a) w = (rr, w1)
       /\ match rr with
          | Raise e => r = Raise e /\ w' = w1
          | Ok obs1 =>
              w' = set_trace w1 (trace w1 ++ [EvFinalCapture])
              /\ r = match __call__ obs1 with
                     | (Ok _, obs2) => Ok obs2
                     | (Raise e, _) => Raise e
                     end
          end.
Proof.
  unfold block, bind. intros Hb.
  destruct (RelaxCalc.opt_class self) as [[o|c]|]; cbn in Hb.
  - right.
    destruct (run _ _ w) as [[obs1|e] w1] eqn:Hrun.
    + exists (ase_optimizer o), (Ok obs1), w1.
      split; [reflexivity|]. split; [exact Hrun|].
      unfold call_observer in Hb.
      destruct (__call__ obs1) as [[u|e] obs2];
        injection Hb as <- <-; split; reflexivity.
    + exists (ase_optimizer o), (Raise e), w1.
      split; [reflexivity|]. split; [exact Hrun|].
      injection Hb as <- <-. split; reflexivity.
  - right.
    destruct (run _ _ w) as [[obs1|e] w1] eqn:Hrun.
    + exists c, (Ok obs1), w1.
      split; [reflexivity|]. split; [exact Hrun|].
      unfold call_observer in Hb.
      destruct (__call__ obs1) as [[u|e] obs2];
        injection Hb as <- <-; split; reflexivity.
    + exists c, (Raise e), w1.
      split; [reflexivity|]. split; [exact Hrun|].
      injection Hb as <- <-. split; reflexivity.
  - left. injection Hb as <- <-. repeat split.
Qed.

Lemma block_static (self : RelaxCalc.t) (a : Atoms) (w w' : World) (r : Result t) :
  block self a w = (r, w') ->
  heap w' = heap w /\ files w' = files w
  /\ writable w' = writable w /\ sys_stdout w' = sys_stdout w.
Proof.
  intros Hb. apply block_inv in Hb as [(_ & _ & ->)|(opt & rr & w1 & _ & Hrun & Hrr)];
    [auto|].
  apply run_static in Hrun.
  destruct rr as [obs1|e];
    [destruct Hrr as [-> _] | destruct Hrr as [_ ->]]; exact Hrun.
Qed.

Lemma block_captured (self : RelaxCalc.t) (a : Atoms) (w w' : World)
    (r : Result t) (id : nat) :
  block self a w = (r, w') ->
  sys_stdout w = StringIO id ->
  console w' = console w
  /\ forall id', id' <> id -> stringios w' !! id' = stringios w !! id'.
Proof.
  intros Hb Hs.
  apply block_inv in Hb as [(_ & _ & ->)|(opt & rr & w1 & _ & Hrun & Hrr)];
    [auto|].
  eapply run_captured in Hrun; [|exact Hs].
  destruct rr as [obs1|e];
    [destruct Hrr as [-> _] | destruct Hrr as [_ ->]]; exact Hrun.
Qed.

(** The events of the block: the ticks of the run and, when the run
    returned, the final capture.  When the block returns the record has
    one snapshot per tick and one more. *)
Lemma block_trace (self : RelaxCalc.t) (a : Atoms) (w w' : World) (r : Result t) :
  block self a w = (r, w') ->
  exists k evs,
    trace w' = (trace w ++ evs)%list
    /\ quiet evs
    /\ forall obs,
         r = Ok obs ->
         evs = (repeat EvObserverTick k ++ [EvFinalCapture])%list
         /\ __len__ obs = (k + 1)%nat
         /\ aligned obs
         /\ forall opt,
              resolve (RelaxCalc.opt_class self) = Some opt ->
              k = tick_count (opt_run opt a (RelaxCalc.interval self)
                                (RelaxCalc.fmax self) (RelaxCalc.steps self)).
Proof.
  intros Hb.
  apply block_inv in Hb as [(_ & -> & ->)|(opt & rr & w1 & Hopt & Hrun & Hrr)].
  - exists 0%nat, []. split; [now rewrite app_nil_r|].
    split; [constructor|]. intros obs [=].
  - apply run_ticks in Hrun as (k & Ht & Hok).
    destruct rr as [obs1|e].
    + destruct Hrr as [-> ->].
      exists k, (repeat EvObserverTick k ++ [EvFinalCapture])%list.
      split; [cbn; rewrite Ht, <- app_assoc; reflexivity|].
      split; [apply quiet_app; [apply quiet_ticks | repeat constructor]|].
      intros obs Hobs. split; [reflexivity|].
      destruct (Hok obs1 eq_refl) as (Hk & Hl & Hal).
      destruct (__call__ obs1) as [[u|e] obs2] eqn:Hc; [|discriminate].
      injection Hobs as <-.
      split; [|split].
      * rewrite (call_ok_len _ _ _ Hc), Hl. cbn. lia.
      * eapply call_ok_aligned; [exact Hc|]. apply Hal, init_aligned.
      * intros opt' Hopt'. rewrite Hopt in Hopt'. injection Hopt' as <-.
        exact Hk.
    + destruct Hrr as [-> ->].
      exists k, (repeat EvObserverTick k). split; [exact Ht|].
      split; [apply quiet_ticks|]. intros obs [=].
Qed.

End RelaxFacts.

Section RelaxClaims.
Context `{Toolkit}.
Import TrajectoryObserver.

Lemma relax_inv (self : RelaxCalc.t) (structure : nat) (w w' : World)
    (r : Result t) :
  RelaxCalc.relax self structure w = (r, w') ->
  (heap w !! structure = None /\ is_ok r = false /\ w' = w)
  \/ exists s,
       heap w !! structure = Some s
       /\ ((get_atoms s = Raise (match r with Raise e => e | _ => ExternalError "" end)
            /\ is_ok r = false
            /\ w' = set_trace w (trace w ++ [EvGetAtoms structure]))
           \/ exists a w3,
                get_atoms s = Ok a
                /\ block self (set_calculator a (RelaxCalc.calculator self))
                     (entered w structure) = (r, w3)
                /\ w' = set_sys_stdout w3 (sys_stdout w)).
Proof.
  rewrite relax_unfold.
  unfold bind, deref, emit, modify, lift_result, StringIO_new, redirect_stdout.
  destruct (heap w !! structure) as [s|] eqn:Hs.
  - intros Hr. right. exists s. split; [reflexivity|].
    cbn beta iota in Hr.
    destruct (get_atoms s) as [a|e] eqn:Ha.
    + right.
      match type of Hr with
      | context [block ?x ?y ?z] =>
          destruct (block x y z) as [r3 w3] eqn:Hb
      end.
      exists a, w3. split; [reflexivity|].
      injection Hr as <- <-. split; [exact Hb | reflexivity].
    + left. injection Hr as <- <-. repeat split.
  - intros Hr. left. injection Hr as <- <-. repeat split.
Qed.

(** Whatever [relax] does, it leaves the caller's objects, the files,
    [sys.stdout], the console and the existing StringIO objects as they
    were, and writes no file. *)
Lemma relax_frame (self : RelaxCalc.t) (structure : nat) (w w' : World)
    (r : Result t) :
  RelaxCalc.relax self structure w = (r, w') ->
  heap w' = heap w /\ files w' = files w /\ writable w' = writable w
  /\ sys_stdout w' = sys_stdout w /\ console w' = console w
  /\ (forall id, id ∈ dom (stringios w) ->
                 stringios w' !! id = stringios w !! id)
  /\ exists evs, trace w' = (trace w ++ evs)%list /\ quiet evs.
Proof.
  intros Hr.
  apply relax_inv in Hr as [(_ & _ & ->)|(s & _ & [(_ & _ & ->)|(a & w3 & _ & Hb & ->)])].
  - repeat split; auto. exists []. split; [now rewrite app_nil_r | constructor].
  - repeat split; auto. exists [EvGetAtoms structure].
    split; [reflexivity | repeat constructor].
  - pose proof (block_static _ _ _ _ _ Hb) as (Hh & Hf & Hw & _).
    pose proof (block_captured _ _ _ _ _ _ Hb eq_refl) as (Hc & Hbuf).
    pose proof (block_trace _ _ _ _ _ Hb) as (k & evs & Ht & Hq & _).
    cbn. split; [exact Hh|]. split; [exact Hf|]. split; [exact Hw|].
    split; [reflexivity|]. split; [exact Hc|]. split.
    + intros id Hid. rewrite Hbuf.
      * cbn. apply lookup_insert_ne. intros Heq.
        apply (is_fresh (dom (stringios w))). rewrite Heq. exact Hid.
      * intros Heq.
        apply (is_fresh (dom (stringios w))). rewrite <- Heq. exact Hid.
    + exists (EvGetAtoms structure :: evs). split.
      * rewrite Ht. cbn. rewrite <- app_assoc. reflexivity.
      * constructor; [reflexivity | exact Hq].
Qed.

(** What [relax] did when it returns: one conversion, the ticks of the
    optimizer's script, the final capture; one snapshot for each of the
    last two kinds. *)
Lemma relax_ok_inv (self : RelaxCalc.t) (structure : nat)
    (w w' : World) (obs : t) :
  RelaxCalc.relax self structure w = (Ok obs, w') ->
  exists k,
    trace w' = (trace w ++ EvGetAtoms structure
                  :: repeat EvObserverTick k ++ [EvFinalCapture])%list
    /\ __len__ obs = (k + 1)%nat
    /\ aligned obs
    /\ exists s a opt,
         heap w !! structure = Some s
         /\ get_atoms s = Ok a
         /\ resolve (RelaxCalc.opt_class self) = Some opt
         /\ k = tick_count
                  (opt_run opt (set_calculator a (RelaxCalc.calculator self))
                     (RelaxCalc.interval self) (RelaxCalc.fmax self)
                     (RelaxCalc.steps self)).
Proof.
  intros Hr.
  apply relax_inv in Hr
    as [(_ & [=] & _)|(s & Hs & [(_ & [=] & _)|(a & w3 & Ha & Hb & ->)])].
  pose proof (block_inv _ _ _ _ _ Hb) as [(_ & [=] & _)|(opt & _ & _ & Hopt & _)].
  apply block_trace in Hb as (k & evs & Ht & _ & Hok).
  destruct (Hok obs eq_refl) as (-> & Hl & Hal & Hk).
  exists k. split; [|split; [exact Hl | split; [exact Hal|]]].
  - cbn. rewrite Ht. cbn. rewrite <- app_assoc. reflexivity.
  - exists s, a, opt. auto.
Qed.

(** C2: when the run of the driver returns, the record holds one
    snapshot for each observer call the optimizer made for the given
    interval, and one more for the final capture made after the
    optimizer's run; the trace shows the calls and then that capture. *)
Theorem relax_record_length (self : RelaxCalc.t) (structure : nat)
    (w w' : World) (obs : t) :
  RelaxCalc.relax self structure w = (Ok obs, w') ->
  exists s a opt,
    heap w !! structure = Some s
    /\ get_atoms s = Ok a
    /\ resolve (RelaxCalc.opt_class self) = Some opt
    /\ let ticks :=
         tick_count (opt_run opt (set_calculator a (RelaxCalc.calculator self))
                       (RelaxCalc.interval self) (RelaxCalc.fmax self)
                       (RelaxCalc.steps self)) in
       __len__ obs = (ticks + 1)%nat
       /\ trace w' = (trace w ++ EvGetAtoms structure
                        :: repeat EvObserverTick ticks ++ [EvFinalCapture])%list
       /\ aligned obs.
Proof.
  intros Hr.
  apply relax_ok_inv in Hr
    as (k & Ht & Hl & Hal & s & a & opt & Hs & Ha & Hopt & Hk).
  exists s, a, opt. subst k.
  split; [exact Hs|]. split; [exact Ha|]. split; [exact Hopt|].
  split; [exact Hl|]. split; [exact Ht | exact Hal].
Qed.

End RelaxClaims.

Lemma relax_record_length_witness :
  RelaxCalc.relax (Demo.relaxer None) 0%nat Demo.world
  = (Ok Demo.relaxed_obs, snd Demo.relaxed)
  /\ tick_count (opt_run Demo.plodder Demo.resting 2 RelaxCalc.default_fmax 3)
     = 2%nat
  /\ TrajectoryObserver.__len__ Demo.relaxed_obs = 3%nat.
Proof.
  assert (E : RelaxCalc.relax (Demo.relaxer None) 0%nat Demo.world
              = (Ok Demo.relaxed_obs, snd Demo.relaxed))
    by (vm_compute; reflexivity).
  split; [exact E|]. split; [vm_compute; reflexivity|].
  destruct (relax_record_length _ _ _ _ _ E)
    as (s & a & opt & Hs & Ha & Hopt & Hl & _).
  assert (Hin : heap Demo.world !! 0%nat = Some Demo.box)
    by (vm_compute; reflexivity).
  rewrite Hin in Hs. injection Hs as <-.
  injection Ha as <-. injection Hopt as <-.
  rewrite Hl. vm_compute. reflexivity.
Defined.

(** ** The whole call *)

Section CalcFacts.
Context `{Toolkit}.
Import TrajectoryObserver.

(** The ways through [calc]: the relaxation raises; the trajectory file
    cannot be opened; the conversion back raises; the dict is returned. *)
Lemma calc_inv (self : RelaxCalc.t) (structure : nat) (w w' : World)
    (r : Result (gmap string PyVal)) :
  RelaxCalc.calc self structure w = (r, w') ->
  (exists e, RelaxCalc.relax self structure w = (Raise e, w') /\ r = Raise e)
  \/ exists obs w1,
       RelaxCalc.relax self structure w = (Ok obs, w1)
       /\ ((exists filename,
               RelaxCalc.traj_file self = Some filename
               /\ writable w1 filename = false
               /\ r = Raise (OSError filename) /\ w' = w1)
           \/ exists w2,
                saved self obs w1 w2
                /\ match get_structure (atoms obs) with
                   | Raise e =>
                       r = Raise e
                       /\ w' = set_trace w2 (trace w2 ++ [EvGetStructure])
                   | Ok fs =>
                       r = Ok (result_dict (fresh (dom (heap w2))) fs)
                       /\ w' = set_heap
                                 (set_trace w2 (trace w2 ++ [EvGetStructure]))
                                 (<[fresh (dom (heap w2)) := fs]> (heap w2))
                   end).
Proof.
  unfold RelaxCalc.calc, bind. intros Hc.
  destruct (RelaxCalc.relax self structure w) as [[obs|e] w1] eqn:Hrel.
  - right. exists obs, w1. split; [reflexivity|].
    unfold saved.
    destruct (RelaxCalc.traj_file self) as [filename|].
    + unfold save, open_wb_dump in Hc.
      destruct (writable w1 filename) eqn:Hw.
      * right. eexists. split; [split; reflexivity|].
        unfold emit, modify, lift_result, alloc, ret in Hc. cbn in Hc.
        destruct (get_structure (atoms obs)) as [fs|e];
          injection Hc as <- <-; split; reflexivity.
      * left. exists filename. injection Hc as <- <-. repeat split. exact Hw.
    + right. exists w1. split; [reflexivity|].
      unfold emit, modify, lift_result, alloc, ret in Hc. cbn in Hc.
      destruct (get_structure (atoms obs)) as [fs|e];
        injection Hc as <- <-; split; reflexivity.
  - left. exists e. injection Hc as <- <-. split; reflexivity.
Qed.

End CalcFacts.

Section CaptureFacts.
Context `{Toolkit}.
Import TrajectoryObserver.

(** What a run that returns leaves in the StringIO that [sys.stdout]
    points to: the lines the optimizer logged, after what was there. *)
Lemma run_logged (script : list OptAction) (id : nat) :
  forall obs w obs' w' old,
    run script obs w = (Ok obs', w') ->
    sys_stdout w = StringIO id ->
    stringios w !! id = Some old ->
    stringios w' !! id = Some (old ++ log_lines script)%list.
Proof.
  induction script as [|act rest IH]; intros obs w obs' w' old Hrun Hs Hold.
  - cbn in Hrun. injection Hrun as _ <-. cbn. now rewrite app_nil_r.
  - destruct act; cbn [run] in Hrun;
      unfold bind, ret, raise, lift_result, emit, print, modify,
        call_observer in Hrun; cbn beta iota in Hrun.
    + destruct (set_positions (atoms obs) p) as [a|e]; [|discriminate].
      eapply IH; eauto.
    + eapply IH; eauto.
    + rewrite Hs in Hrun. cbn [log_lines].
      replace (old ++ line :: log_lines rest)%list
        with ((old ++ [line]) ++ log_lines rest)%list
        by (rewrite <- app_assoc; reflexivity).
      eapply IH; [exact Hrun | exact Hs |].
      cbn. rewrite lookup_insert_eq, Hold. reflexivity.
    + destruct (__call__ obs) as [[u|e] obs1]; [|discriminate].
      eapply IH; [exact Hrun | exact Hs | exact Hold].
    + discriminate.
Qed.

Lemma block_logged (self : RelaxCalc.t) (a : Atoms) (w w' : World)
    (obs : t) (id : nat) (old : list string) (opt : OptimizerClass) :
  block self a w = (Ok obs, w') ->
  sys_stdout w = StringIO id ->
  stringios w !! id = Some old ->
  resolve (RelaxCalc.opt_class self) = Some opt ->
  stringios w' !! id
  = Some (old ++ log_lines (opt_run opt a (RelaxCalc.interval self)
                              (RelaxCalc.fmax self) (RelaxCalc.steps self)))%list.
Proof.
  intros Hb Hs Hold Hopt.
  apply block_inv in Hb as [(_ & [=] & _)|(opt' & rr & w1 & Hopt' & Hrun & Hrr)].
  rewrite Hopt in Hopt'. injection Hopt' as <-.
  destruct rr as [obs1|e]; [|destruct Hrr as [[=] _]].
  destruct Hrr as [-> _]. cbn.
  eapply run_logged; eauto.
Qed.

Lemma relax_logged (self : RelaxCalc.t) (structure : nat) (w w' : World)
    (obs : t) (s : Structure) (a : Atoms) (opt : OptimizerClass) :
  RelaxCalc.relax self structure w = (Ok obs, w') ->
  heap w !! structure = Some s ->
  get_atoms s = Ok a ->
  resolve (RelaxCalc.opt_class self) = Some opt ->
  stringios w' !! fresh (dom (stringios w))
  = Some (log_lines (opt_run opt (set_calculator a (RelaxCalc.calculator self))
                       (RelaxCalc.interval self) (RelaxCalc.fmax self)
                       (RelaxCalc.steps self))).
Proof.
  intros Hr Hs Ha Hopt.
  apply relax_inv in Hr
    as [(_ & [=] & _)|(s' & Hs' & [(_ & [=] & _)|(a' & w3 & Ha' & Hb & ->)])].
  rewrite Hs in Hs'. injection Hs' as <-.
  rewrite Ha in Ha'. injection Ha' as <-.
  eapply (block_logged _ _ _ _ _ _ []) in Hb; [| reflexivity | | exact Hopt].
  - exact Hb.
  - cbn. apply lookup_insert_eq.
Qed.

Lemma saved_frame (self : RelaxCalc.t) (obs : t) (w1 w2 : World) :
  saved self obs w1 w2 ->
  heap w2 = heap w1 /\ sys_stdout w2 = sys_stdout w1
  /\ console w2 = console w1 /\ stringios w2 = stringios w1.
Proof.
  unfold saved. destruct (RelaxCalc.traj_file self); [intros [_ ->] | intros ->];
    repeat split.
Qed.

(** Whatever [calc] does, the objects the caller holds are as before,
    and so are the output streams, which the relaxation alone touches. *)
Lemma calc_frame (self : RelaxCalc.t) (structure : nat) (w w' : World)
    (r : Result (gmap string PyVal)) :
  RelaxCalc.calc self structure w = (r, w') ->
  (forall obj s, heap w !! obj = Some s -> heap w' !! obj = Some s)
  /\ sys_stdout w' = sys_stdout w /\ console w' = console w
  /\ stringios w' = stringios (snd (RelaxCalc.relax self structure w)).
Proof.
  intros Hc.
  apply calc_inv in Hc
    as [(e & Hrel & _)
       |(obs & w1 & Hrel & [(f & _ & _ & _ & ->)|(w2 & Hsv & Hfin)])];
    rewrite Hrel; cbn [snd];
    apply relax_frame in Hrel as (Hh & _ & _ & Hs & Hcon & _ & _).
  - rewrite Hh. auto.
  - rewrite Hh. auto.
  - apply saved_frame in Hsv as (Hh2 & Hs2 & Hc2 & Hb2).
    destruct (get_structure (atoms obs)) as [fs|e];
      destruct Hfin as [_ ->]; cbn;
      rewrite ?Hh2, ?Hs2, ?Hc2, ?Hb2, ?Hh.
    + split; [|auto]. intros obj s Hobj.
      rewrite lookup_insert_ne; [exact Hobj|].
      intros Heq. apply (is_fresh (dom (heap w))). rewrite Heq.
      apply elem_of_dom. eauto.
    + auto.
Qed.

End CaptureFacts.

Section CalcClaims.
Context `{Toolkit}.
Import TrajectoryObserver.

(** C8: whatever the outcome of the call, the structure the caller
    passed in, and every other object the caller holds, is afterwards
    what it was before. *)
Theorem calc_keeps_caller_structure (self : RelaxCalc.t) (structure : nat)
    (w w' : World) (r : Result (gmap string PyVal)) (s : Structure) :
  heap w !! structure = Some s ->
  RelaxCalc.calc self structure w = (r, w') ->
  heap w' !! structure = Some s
  /\ forall obj s', heap w !! obj = Some s' -> heap w' !! obj = Some s'.
Proof.
  intros Hs Hc. apply calc_frame in Hc as (Hh & _). split; auto.
Qed.

(** C9: whatever the outcome of the call, [sys.stdout] points where it
    did before, nothing was added to the console or to a StringIO that
    existed, and when the call returns the lines the optimizer logged
    are in a StringIO created for the call. *)
Theorem calc_output_captured (self : RelaxCalc.t) (structure : nat)
    (w w' : World) (r : Result (gmap string PyVal)) :
  RelaxCalc.calc self structure w = (r, w') ->
  sys_stdout w' = sys_stdout w
  /\ console w' = console w
  /\ (forall id, id ∈ dom (stringios w) ->
                 stringios w' !! id = stringios w !! id)
  /\ forall s a opt,
       heap w !! structure = Some s ->
       get_atoms s = Ok a ->
       resolve (RelaxCalc.opt_class self) = Some opt ->
       is_ok r = true ->
       stringios w' !! fresh (dom (stringios w))
       = Some (log_lines
                 (opt_run opt (set_calculator a (RelaxCalc.calculator self))
                    (RelaxCalc.interval self) (RelaxCalc.fmax self)
                    (RelaxCalc.steps self))).
Proof.
  intros Hc. pose proof (calc_frame _ _ _ _ _ Hc) as (_ & Hs & Hcon & Hb).
  split; [exact Hs|]. split; [exact Hcon|].
  destruct (RelaxCalc.relax self structure w) as [rr w1] eqn:Hrel.
  cbn [snd] in Hb. rewrite Hb. split.
  - apply relax_frame in Hrel as (_ & _ & _ & _ & _ & Hold & _). exact Hold.
  - intros s a opt Hst Ha Hopt Hok.
    apply calc_inv in Hc as [(e & _ & ->)|(obs & w1' & Hrel' & _)];
      [discriminate|].
    rewrite Hrel in Hrel'. injection Hrel' as -> <-.
    eapply relax_logged; eauto.
Qed.

(** C4: when the call returns, what it returns is a dict with exactly
    the keys final_structure, a, b, c, alpha, beta, gamma and volume;
    final_structure is a new pymatgen structure object and the other
    seven are the floats of its lattice. *)
Theorem calc_result_complete (self : RelaxCalc.t) (structure : nat)
    (w w' : World) (d : gmap string PyVal) :
  RelaxCalc.calc self structure w = (Ok d, w') ->
  dom d = result_keys
  /\ exists obj fs,
       d !! "final_structure" = Some (VObject obj)
       /\ heap w !! obj = None
       /\ heap w' !! obj = Some fs
       /\ d !! "a" = Some (VFloat (lattice_a (lattice fs)))
       /\ d !! "b" = Some (VFloat (lattice_b (lattice fs)))
       /\ d !! "c" = Some (VFloat (lattice_c (lattice fs)))
       /\ d !! "alpha" = Some (VFloat (lattice_alpha (lattice fs)))
       /\ d !! "beta" = Some (VFloat (lattice_beta (lattice fs)))
       /\ d !! "gamma" = Some (VFloat (lattice_gamma (lattice fs)))
       /\ d !! "volume" = Some (VFloat (lattice_volume (lattice fs))).
Proof.
  intros Hc.
  apply calc_inv in Hc
    as [(e & _ & [=])
       |(obs & w1 & Hrel & [(f & _ & _ & [=] & _)|(w2 & Hsv & Hfin)])].
  destruct (get_structure (atoms obs)) as [fs|e];
    [|destruct Hfin as [[=] _]].
  destruct Hfin as [[= ->] ->].
  apply saved_frame in Hsv as (Hh2 & _).
  apply relax_frame in Hrel as (Hh & _).
  split.
  - unfold result_dict, result_keys. rewrite !dom_insert_L, dom_empty_L.
    cbn [list_to_set foldr]. set_solver.
  - exists (fresh (dom (heap w2))), fs.
    split; [reflexivity|]. split.
    + rewrite <- Hh, <- Hh2. apply not_elem_of_dom, is_fresh.
    + split; [cbn; apply lookup_insert_eq|].
      unfold result_dict. repeat split; simplify_map_eq; reflexivity.
Qed.

End CalcClaims.

Section FileClaims.
Context `{Toolkit}.
Import TrajectoryObserver.

(** C7: with no trajectory path the call writes no file, whatever its
    outcome.  With a path, either nothing was written and the call
    raised, or the relaxation returned its record and that record,
    final capture included, was written to the path once, right after
    the final capture and before the conversion back: the file holds
    the pickle of the five sequences and the atomic numbers.  The second
    is the case whenever the call returns. *)
Theorem calc_file_io (self : RelaxCalc.t) (structure : nat)
    (w w' : World) (r : Result (gmap string PyVal)) :
  RelaxCalc.calc self structure w = (r, w') ->
  match RelaxCalc.traj_file self with
  | None =>
      files w' = files w
      /\ exists evs, trace w' = (trace w ++ evs)%list /\ quiet evs
  | Some filename =>
      (is_ok r = false
       /\ files w' = files w
       /\ exists evs, trace w' = (trace w ++ evs)%list /\ quiet evs)
      \/ exists obs w1 k,
           RelaxCalc.relax self structure w = (Ok obs, w1)
           /\ __len__ obs = (k + 1)%nat
           /\ files w'
              = <[filename := pickle_dump (trajectory_record obs)]> (files w)
           /\ trace w'
              = (trace w ++ EvGetAtoms structure
                   :: repeat EvObserverTick k
                   ++ [EvFinalCapture; EvWrite filename; EvGetStructure])%list
  end.
Proof.
  intros Hc.
  apply calc_inv in Hc
    as [(e & Hrel & ->)
       |(obs & w1 & Hrel & [(f & Hf & _ & -> & ->)|(w2 & Hsv & Hfin)])].
  - apply relax_frame in Hrel as (_ & Hfiles & _ & _ & _ & _ & Hev).
    destruct (RelaxCalc.traj_file self); [left|]; auto.
  - apply relax_frame in Hrel as (_ & Hfiles & _ & _ & _ & _ & Hev).
    rewrite Hf. left. auto.
  - pose proof (relax_ok_inv _ _ _ _ _ Hrel) as (k & Ht & Hl & _).
    pose proof (relax_frame _ _ _ _ _ Hrel) as (_ & Hfiles & _ & _ & _ & _ & Hev).
    unfold saved in Hsv.
    assert (Hw' : files w' = files w2
                  /\ trace w' = (trace w2 ++ [EvGetStructure])%list).
    { destruct (get_structure (atoms obs)); destruct Hfin as [_ ->];
        split; reflexivity. }
    destruct Hw' as [Hf' Ht'].
    destruct (RelaxCalc.traj_file self) as [filename|].
    + right. destruct Hsv as [_ ->]. exists obs, w1, k.
      split; [exact Hrel|]. split; [exact Hl|]. split.
      * rewrite Hf'. cbn. rewrite Hfiles. reflexivity.
      * rewrite Ht'. cbn. rewrite Ht.
        rewrite <- !app_assoc. cbn. rewrite <- !app_assoc. reflexivity.
    + subst w2. rewrite Hf', Hfiles. split; [reflexivity|].
      destruct Hev as (evs & Hevs & Hq).
      exists (evs ++ [EvGetStructure])%list. split.
      * rewrite Ht', Hevs, <- app_assoc. reflexivity.
      * apply quiet_app; [exact Hq | repeat constructor].
Qed.

End FileClaims.

Lemma calc_keeps_caller_structure_witness :
  heap Demo.world !! 0%nat = Some Demo.box
  /\ is_ok (fst (Demo.called (Some "t.pkl"))) = true
  /\ heap (snd (Demo.called (Some "t.pkl"))) !! 0%nat = Some Demo.box.
Proof.
  assert (Hin : heap Demo.world !! 0%nat = Some Demo.box)
    by (vm_compute; reflexivity).
  split; [exact Hin|]. split; [vm_compute; reflexivity|].
  exact (proj1 (calc_keeps_caller_structure
                  (Demo.relaxer (Some "t.pkl")) 0%nat Demo.world _ _ Demo.box
                  Hin (surjective_pairing (Demo.called (Some "t.pkl"))))).
Defined.

Lemma calc_output_captured_witness :
  sys_stdout (snd (Demo.called None)) = sys_stdout Demo.world
  /\ console (snd (Demo.called None)) = console Demo.world
  /\ stringios (snd (Demo.called None)) !! 0%nat
     = Some ["step"; "step"; "step"; "step"].
Proof.
  pose proof (calc_output_captured (Demo.relaxer None) 0%nat Demo.world _ _
                (surjective_pairing (Demo.called None)))
    as (Hs & Hc & _ & Hlog).
  split; [exact Hs|]. split; [exact Hc|].
  assert (Hin : heap Demo.world !! 0%nat = Some Demo.box)
    by (vm_compute; reflexivity).
  assert (Hok : is_ok (fst (Demo.called None)) = true)
    by (vm_compute; reflexivity).
  specialize (Hlog Demo.box (Demo.atoms_of Demo.box) Demo.plodder
                Hin eq_refl eq_refl Hok).
  assert (Hid : fresh (dom (stringios Demo.world)) = 0%nat)
    by (vm_compute; reflexivity).
  rewrite Hid in Hlog. rewrite Hlog. vm_compute. reflexivity.
Defined.

Lemma calc_result_complete_witness :
  RelaxCalc.calc (Demo.relaxer None) 0%nat Demo.world
  = (Ok (Demo.returned None), snd (Demo.called None))
  /\ dom (Demo.returned None) = result_keys
  /\ Demo.returned None !! "volume" = Some (VFloat 60).
Proof.
  assert (E : RelaxCalc.calc (Demo.relaxer None) 0%nat Demo.world
              = (Ok (Demo.returned None), snd (Demo.called None)))
    by (vm_compute; reflexivity).
  split; [exact E|].
  split; [exact (proj1 (calc_result_complete _ _ _ _ _ E))|].
  vm_compute; reflexivity.
Defined.

Lemma calc_file_io_witness :
  (files (snd (Demo.called None)) = files Demo.world
   /\ exists evs,
        trace (snd (Demo.called None)) = (trace Demo.world ++ evs)%list
        /\ quiet evs)
  /\ exists obs,
       files (snd (Demo.called (Some "old.pkl")))
       = <["old.pkl" := Demo.dump (trajectory_record obs)]> (files Demo.world)
       /\ exists k,
            TrajectoryObserver.__len__ obs = (k + 1)%nat
            /\ trace (snd (Demo.called (Some "old.pkl")))
               = (trace Demo.world ++ EvGetAtoms 0
                    :: repeat EvObserverTick k
                    ++ [EvFinalCapture; EvWrite "old.pkl"; EvGetStructure])%list.
Proof.
  split.
  - exact (calc_file_io (Demo.relaxer None) 0%nat Demo.world _ _
             (surjective_pairing (Demo.called None))).
  - destruct (calc_file_io (Demo.relaxer (Some "old.pkl")) 0%nat Demo.world _ _
                (surjective_pairing (Demo.called (Some "old.pkl"))))
      as [(Hno & _)|(obs & w1 & k & _ & Hl & Hf & Ht)].
    + assert (Hok : is_ok (fst (Demo.called (Some "old.pkl"))) = true)
        by (vm_compute; reflexivity).
      rewrite Hok in Hno. discriminate Hno.
    + exists obs. split; [exact Hf|]. exists k. split; [exact Hl | exact Ht].
Defined.

(** ** The constructor *)

Section InitClaims.
Context `{Toolkit}.

(** C5: an explicit None for the optimizer is refused by the
    constructor with a ValueError, whatever the other arguments, so no
    driver is built and nothing can be run; None is not taken for the
    default, "FIRE", with which the constructor returns a driver that
    holds the FIRE class. *)
Theorem init_rejects_none (calculator : Calculator) (fmax : float)
    (steps : Z) (traj_file : option string) (interval : Z) :
  RelaxCalc.__init__ calculator PyNone fmax steps traj_file interval
  = Raise (ValueError "Optimizer cannot be None")
  /\ exists self,
       RelaxCalc.__init__ calculator RelaxCalc.default_optimizer fmax steps
         traj_file interval = Ok self
       /\ RelaxCalc.opt_class self = Some (AseClass FIRE).
Proof.
  split; [reflexivity|].
  unfold RelaxCalc.__init__, RelaxCalc.default_optimizer.
  assert (Hfire : OPTIMIZERS !! "FIRE" = Some FIRE) by (vm_compute; reflexivity).
  rewrite Hfire. eexists. split; reflexivity.
Qed.

(** A name that is not a key of the registry is accepted by the
    constructor: the driver is built, with nothing for an optimizer. *)
Lemma init_accepts_unknown_name (calculator : Calculator) (name : string)
    (fmax : float) (steps : Z) (traj_file : option string) (interval : Z) :
  OPTIMIZERS !! name = None ->
  RelaxCalc.__init__ calculator (PyStr name) fmax steps traj_file interval
  = Ok {| RelaxCalc.calculator := calculator;
          RelaxCalc.opt_class := None;
          RelaxCalc.fmax := fmax;
          RelaxCalc.interval := interval;
          RelaxCalc.steps := steps;
          RelaxCalc.traj_file := traj_file |}.
Proof. intros Hn. unfold RelaxCalc.__init__. rewrite Hn. reflexivity. Qed.

(** Such a driver fails only in [calc], when it calls what it holds for
    an optimizer class: a TypeError, after the structure was converted. *)
Lemma calc_without_optimizer (self : RelaxCalc.t) (structure : nat)
    (w : World) (s : Structure) (a : Atoms) :
  RelaxCalc.opt_class self = None ->
  heap w !! structure = Some s ->
  get_atoms s = Ok a ->
  exists w',
    RelaxCalc.calc self structure w
    = (Raise (TypeError "'NoneType' object is not callable"), w')
    /\ trace w' = (trace w ++ [EvGetAtoms structure])%list.
Proof.
  intros Hopt Hs Ha.
  unfold RelaxCalc.calc, RelaxCalc.relax, bind, deref, emit, modify,
    lift_result, StringIO_new, redirect_stdout.
  rewrite Hs. cbn beta iota. rewrite Ha, Hopt. cbn.
  eexists. split; reflexivity.
Qed.

End InitClaims.

(** C1 fails on the code: the name "Adam" is not in the registry, yet the
    constructor returns a driver; its [calc] converts the structure and
    only then raises, a TypeError and not a configuration error. *)
Theorem unknown_name_fails_late :
  OPTIMIZERS !! "Adam" = None
  /\ RelaxCalc.__init__ Demo.flat (PyStr "Adam") RelaxCalc.default_fmax
       RelaxCalc.default_steps RelaxCalc.default_traj_file
       RelaxCalc.default_interval = Ok Demo.adam
  /\ fst (RelaxCalc.calc Demo.adam 0%nat Demo.world)
     = Raise (TypeError "'NoneType' object is not callable")
  /\ trace (snd (RelaxCalc.calc Demo.adam 0%nat Demo.world)) = [EvGetAtoms 0].
Proof.
  split; [vm_compute; reflexivity|].
  split; [vm_compute; reflexivity|].
  split; vm_compute; reflexivity.
Qed.

(** ** Saving and reading back *)

Section CodecFacts.
Import Demo.

Lemma dec_items_sound {A} (enc : A -> list token) (dec : parser A) :
  sound enc dec ->
  forall l rest,
    dec_items dec (length l) (concat (map enc l) ++ rest)%list = Some (l, rest).
Proof.
  intros Hs l. induction l as [|x l IH]; intros rest; cbn.
  - reflexivity.
  - rewrite <- app_assoc, Hs, IH. reflexivity.
Qed.

Lemma enc_list_sound {A} (enc : A -> list token) (dec : parser A) :
  sound enc dec -> sound (enc_list enc) (dec_list dec).
Proof. intros Hs l rest. cbn. apply dec_items_sound, Hs. Qed.

Lemma enc_float_sound : sound enc_float dec_float.
Proof. intros x rest. reflexivity. Qed.

Lemma enc_int_sound : sound enc_int dec_int.
Proof. intros x rest. reflexivity. Qed.

Lemma enc_vec_sound : sound enc_vec dec_vec.
Proof. apply enc_list_sound, enc_float_sound. Qed.

Lemma enc_matrix_sound : sound enc_matrix dec_matrix.
Proof. apply enc_list_sound, enc_vec_sound. Qed.

Lemma load_dump (d : Out.dict) : load (dump d) = Ok d.
Proof.
  destruct d as [e f s p c z]. unfold load, dump. cbn [Out.energy Out.forces
    Out.stresses Out.atom_positions Out.cell Out.atomic_number].
  rewrite (enc_list_sound _ _ enc_float_sound).
  rewrite (enc_list_sound _ _ enc_matrix_sound).
  rewrite (enc_list_sound _ _ enc_vec_sound).
  rewrite (enc_list_sound _ _ enc_matrix_sound).
  rewrite (enc_list_sound _ _ enc_matrix_sound).
  rewrite <- (app_nil_r (enc_list enc_int z)).
  rewrite (enc_list_sound _ _ enc_int_sound).
  reflexivity.
Qed.

End CodecFacts.

Section SaveClaims.
Context `{Toolkit}.
Import TrajectoryObserver.

(** [pickle.load] reads back what [pickle.dump] wrote. *)
Hypothesis pickle_round_trip : forall d, pickle_load (pickle_dump d) = Ok d.

(** C3, as amended: saving a record to a path that can be written
    leaves at that path, whatever was there, a file that reads back as
    the five sequences of the record, element for element, and the
    atomic numbers, one per atom; when the record's sequences run in
    parallel, as they do while no capture has raised, the five read back
    have one length, the record's. *)
Theorem save_load_round_trip (obs : t) (filename : string) (w : World) :
  writable w filename = true ->
  exists w' d,
    save obs filename w = (Ok tt, w')
    /\ files w' = <[filename := pickle_dump (out obs)]> (files w)
    /\ (pickle_load <$> files w' !! filename) = Some (Ok d)
    /\ Out.energy d = energies obs
    /\ Out.forces d = forces obs
    /\ Out.stresses d = stresses obs
    /\ Out.atom_positions d = atom_positions obs
    /\ Out.cell d = cells obs
    /\ length (Out.atomic_number d) = natoms (atoms obs)
    /\ (aligned obs ->
        length (Out.energy d) = __len__ obs
        /\ length (Out.forces d) = __len__ obs
        /\ length (Out.stresses d) = __len__ obs
        /\ length (Out.atom_positions d) = __len__ obs
        /\ length (Out.cell d) = __len__ obs).
Proof.
  intros Hw. unfold save, open_wb_dump. rewrite Hw.
  eexists _, (out obs). split; [reflexivity|]. cbn.
  split; [reflexivity|]. split.
  - rewrite lookup_insert_eq. cbn. now rewrite pickle_round_trip.
  - do 5 (split; [reflexivity|]). split.
    + unfold get_atomic_numbers, natoms. cbn. apply length_map.
    + intros (Hf & Hs & Hp & Hc). cbn. auto.
Qed.

End SaveClaims.

Lemma save_load_round_trip_witness :
  (forall d, Demo.load (Demo.dump d) = Ok d)
  /\ writable Demo.world "old.pkl" = true
  /\ exists w' d,
       TrajectoryObserver.save Demo.once "old.pkl" Demo.world = (Ok tt, w')
       /\ (Demo.load <$> files w' !! "old.pkl") = Some (Ok d)
       /\ Out.energy d = TrajectoryObserver.energies Demo.once
       /\ length (Out.atomic_number d) = 2%nat.
Proof.
  split; [exact load_dump|]. split; [reflexivity|].
  destruct (save_load_round_trip (H := Demo.toolkit) load_dump
              Demo.once "old.pkl" Demo.world eq_refl)
    as (w' & d & Hsave & _ & Hread & He & _ & _ & _ & _ & Hz & _).
  exists w', d. split; [exact Hsave|]. split; [exact Hread|].
  split; [exact He | exact Hz].
Defined.

(** C3, as stated, fails: the record a capture left when it raised at
    the stress is saved as it is and reads back as an energy and a
    forces sequence of one element and stress, positions and cell
    sequences of none: the five are not of identical length. *)
Lemma save_load_unequal_lengths :
  fst (TrajectoryObserver.save Demo.torn "t.pkl" Demo.world) = Ok tt
  /\ exists d,
       Demo.load
         <$> files (snd (TrajectoryObserver.save Demo.torn "t.pkl" Demo.world))
             !! "t.pkl"
       = Some (Ok d)
       /\ length (Out.energy d) = 1%nat
       /\ length (Out.forces d) = 1%nat
       /\ length (Out.stresses d) = 0%nat
       /\ length (Out.atom_positions d) = 0%nat
       /\ length (Out.cell d) = 0%nat.
Proof.
  split; [vm_compute; reflexivity|].
  exists (trajectory_record Demo.torn).
  split; [vm_compute; reflexivity|].
  repeat split.
Qed.

(** ** The step cap of ASE's loop *)

Section DynamicsFacts.
Context `{Toolkit}.
Variable step : Atoms -> Atoms.
Variable converged : Atoms -> float -> bool.
Variable log_line : Z -> string.

Lemma tick_count_app (xs ys : list OptAction) :
  tick_count (xs ++ ys) = (tick_count xs + tick_count ys)%nat.
Proof.
  induction xs as [|x xs IH]; [reflexivity|].
  destruct x; cbn; rewrite IH; reflexivity.
Qed.

Lemma tick_count_call_observers (interval n : Z) :
  1 <= interval ->
  tick_count (call_observers interval n)
  = if n mod interval =? 0 then 1%nat else 0%nat.
Proof.
  intros Hi. unfold call_observers, observer_due.
  replace (0 <? interval) with true by (symmetry; apply Z.ltb_lt; lia).
  destruct (n mod interval =? 0); reflexivity.
Qed.

(** One more multiple of the interval is passed exactly when the new
    step count is one. *)
Lemma div_succ (interval n : Z) :
  1 <= interval -> 0 <= n ->
  (n + 1) / interval - n / interval
  = if (n + 1) mod interval =? 0 then 1 else 0.
Proof.
  intros Hi Hn.
  pose proof (Z.div_mod n interval ltac:(lia)) as Hq.
  pose proof (Z.div_mod (n + 1) interval ltac:(lia)) as Hq'.
  pose proof (Z.mod_pos_bound n interval ltac:(lia)) as Hr.
  pose proof (Z.mod_pos_bound (n + 1) interval ltac:(lia)) as Hr'.
  set (q := n / interval) in *. set (r := n mod interval) in *.
  set (q' := (n + 1) / interval) in *. set (r' := (n + 1) mod interval) in *.
  assert (Hd : interval * (q' - q) = r + 1 - r') by lia.
  destruct (Z.eqb_spec r' 0) as [Hz|Hz].
  - assert (0 < q' - q) by nia. assert (q' - q < 2) by nia. lia.
  - assert (-1 < q' - q) by nia. assert (q' - q < 1) by nia. lia.
Qed.

(** A loop that never converges uses its whole budget and calls the
    observers on every multiple of the interval it reaches. *)
Lemma irun_loop_ticks (interval : Z) (fmax : float) :
  1 <= interval ->
  (forall a, converged a fmax = false) ->
  forall budget n a,
    0 <= n ->
    Z.of_nat (tick_count (irun_loop step converged log_line budget n a interval fmax))
    = (n + Z.of_nat budget) / interval - n / interval.
Proof.
  intros Hi Hnc budget.
  induction budget as [|budget IH]; intros n a Hn.
  - cbn. rewrite Z.add_0_r. lia.
  - cbn [irun_loop]. rewrite Hnc. cbn [tick_count].
    rewrite tick_count_app, tick_count_call_observers by exact Hi.
    rewrite Nat2Z.inj_add, IH by lia.
    pose proof (div_succ interval n Hi Hn) as Hd.
    replace (n + 1 + Z.of_nat budget) with (n + Z.of_nat (S budget)) by lia.
    destruct ((n + 1) mod interval =? 0); cbn; lia.
Qed.

Lemma irun_ticks (a : Atoms) (interval : Z) (fmax : float) (steps : Z) :
  1 <= interval -> 1 <= steps ->
  is_ok (get_forces a) = true ->
  (forall a', converged a' fmax = false) ->
  Z.of_nat (tick_count (irun step converged log_line a interval fmax steps))
  = steps / interval + 1.
Proof.
  intros Hi Hs Hf Hnc. unfold irun, max_steps.
  destruct (get_forces a) as [f|e]; [|discriminate].
  replace (steps =? 0) with false by (symmetry; apply Z.eqb_neq; lia).
  cbn [tick_count].
  rewrite tick_count_app, tick_count_call_observers by exact Hi.
  rewrite Z.mod_0_l by lia. cbn [Z.eqb].
  rewrite Nat2Z.inj_add, (irun_loop_ticks interval fmax Hi Hnc) by lia.
  rewrite Z2Nat.id by lia. rewrite Z.div_0_l by lia.
  rewrite Z.add_0_l. change (Z.of_nat 1) with 1. lia.
Qed.

(** With ASE's loop for an optimizer, a calculator that gives forces, an
    interval and a cap of at least one and a run that reaches the cap,
    the record ends with one snapshot for each multiple of the interval
    from 0 to [steps], and the final one. *)
Lemma relax_length_at_step_cap (self : RelaxCalc.t) (structure : nat)
    (w w' : World) (obs : TrajectoryObserver.t) :
  resolve (RelaxCalc.opt_class self) = Some (dynamics step converged log_line) ->
  1 <= RelaxCalc.interval self ->
  1 <= RelaxCalc.steps self ->
  (forall ats cl, is_ok (calc_forces (RelaxCalc.calculator self) ats cl) = true) ->
  (forall a, converged a (RelaxCalc.fmax self) = false) ->
  RelaxCalc.relax self structure w = (Ok obs, w') ->
  Z.of_nat (TrajectoryObserver.__len__ obs)
  = RelaxCalc.steps self / RelaxCalc.interval self + 2.
Proof.
  intros Hopt Hi Hs Hfo Hnc Hr.
  apply relax_ok_inv in Hr
    as (k & _ & Hl & _ & s & a & opt & _ & _ & Hopt' & Hk).
  rewrite Hopt in Hopt'. injection Hopt' as <-.
  rewrite Hl, Hk. cbn [opt_run dynamics].
  rewrite Nat2Z.inj_add, irun_ticks; [lia | | | | ]; try assumption.
  apply Hfo.
Qed.

End DynamicsFacts.

(** * Further properties *)

(** ** Indexing after captures *)

Section IndexFacts.
Import TrajectoryObserver.

Lemma index_error_is (i : Z) : exists msg, index_error i = IndexError msg.
Proof. unfold index_error. destruct (_ && _); eexists; reflexivity. Qed.

(** A non-negative index reads the list at that position. *)
Lemma py_index_nonneg {A} (l : list A) (i : Z) :
  0 <= i ->
  py_index l i = match l !! Z.to_nat i with
                 | Some x => Ok x
                 | None => Raise (index_error i)
                 end.
Proof.
  intros Hi. unfold py_index.
  replace (i <? 0) with false by (symmetry; apply Z.ltb_ge; lia).
  destruct ((0 <=? i) && (i <? Z.of_nat (length l))) eqn:Hr; [reflexivity|].
  replace (l !! Z.to_nat i) with (@None A); [reflexivity|].
  symmetry. apply lookup_ge_None.
  apply andb_false_iff in Hr as [Hr|Hr];
    [apply Z.leb_gt in Hr | apply Z.ltb_ge in Hr]; lia.
Qed.

Lemma py_index_app_l {A} (l : list A) (x : A) (i : Z) :
  0 <= i < Z.of_nat (length l) ->
  py_index (l ++ [x]) i = py_index l i.
Proof.
  intros Hi. rewrite !py_index_nonneg by lia.
  rewrite lookup_app_l by lia. reflexivity.
Qed.

Lemma py_index_app_last {A} (l : list A) (x : A) :
  py_index (l ++ [x]) (-1) = Ok x.
Proof.
  unfold py_index. rewrite length_app. cbn [length].
  replace (-1 <? 0) with true by reflexivity.
  replace (-1 + Z.of_nat (length l + 1)) with (Z.of_nat (length l)) by lia.
  replace ((0 <=? Z.of_nat (length l))
           && (Z.of_nat (length l) <? Z.of_nat (length l + 1))) with true
    by (symmetry; apply andb_true_iff; split;
        [apply Z.leb_le | apply Z.ltb_lt]; lia).
  rewrite Nat2Z.id, lookup_app_r by lia.
  rewrite Nat.sub_diag. reflexivity.
Qed.

(** The ways a capture raises: at the energy, with nothing appended; at
    the forces, with the energy appended; at the stress, with the energy
    and the forces appended. *)
Lemma call_raise_inv (obs obs' : t) (e : Exn) :
  __call__ obs = (Raise e, obs') ->
  (get_potential_energy (atoms obs) = Raise e /\ obs' = obs)
  \/ (exists en,
        get_potential_energy (atoms obs) = Ok en
        /\ get_forces (atoms obs) = Raise e
        /\ obs' = {| atoms := atoms obs;
                     energies := energies obs ++ [en];
                     forces := forces obs;
                     stresses := stresses obs;
                     atom_positions := atom_positions obs;
                     cells := cells obs |}%list)
  \/ (exists en f,
        get_potential_energy (atoms obs) = Ok en
        /\ get_forces (atoms obs) = Ok f
        /\ get_stress (atoms obs) = Raise e
        /\ obs' = {| atoms := atoms obs;
                     energies := energies obs ++ [en];
                     forces := forces obs ++ [f];
                     stresses := stresses obs;
                     atom_positions := atom_positions obs;
                     cells := cells obs |}%list).
Proof.
  unfold __call__, bind, on_atoms, energies_append, forces_append,
    stresses_append, atom_positions_append, cells_append, modify.
  cbn.
  destruct (get_potential_energy (atoms obs)) as [en|x].
  - destruct (get_forces (atoms obs)) as [f|x].
    + destruct (get_stress (atoms obs)) as [s|x]; [discriminate|].
      intros [= <- <-]. right. right. exists en, f. repeat split.
    + intros [= <- <-]. right. left. exists en. repeat split.
  - intros [= <- <-]. left. split; reflexivity.
Qed.

(** Whatever its outcome, a capture only appends: each sequence of the
    observer is a prefix of what it is afterwards, and the atoms are the
    same. *)
Lemma call_extends (obs obs' : t) (r : Result unit) :
  __call__ obs = (r, obs') ->
  atoms obs' = atoms obs
  /\ (exists xs, energies obs' = energies obs ++ xs /\ length xs <= 1)%list%nat
  /\ (exists xs, forces obs' = forces obs ++ xs /\ length xs <= 1)%list%nat
  /\ (exists xs, stresses obs' = stresses obs ++ xs /\ length xs <= 1)%list%nat
  /\ (exists xs, atom_positions obs' = atom_positions obs ++ xs
                 /\ length xs <= 1)%list%nat
  /\ (exists xs, cells obs' = cells obs ++ xs /\ length xs <= 1)%list%nat.
Proof.
  intros Hc. destruct r as [u|e].
  - destruct (call_ok_inv _ _ _ Hc) as (en & f & s & _ & _ & _ & ->). cbn.
    split; [reflexivity|].
    repeat split; eexists [_]; split; reflexivity || (cbn; lia).
  - destruct (call_raise_inv _ _ _ Hc)
      as [(_ & ->)|[(en & _ & _ & ->)|(en & f & _ & _ & _ & ->)]]; cbn;
      (split; [reflexivity|]);
      repeat split;
      first [ eexists [_]; split; [reflexivity | cbn; lia]
            | exists []; split; [now rewrite app_nil_r | cbn; lia] ].
Qed.

End IndexFacts.

Section ObserverExtras.
Import TrajectoryObserver.

(** X1: right after a capture that returns, [obs[-1]] is the tuple of what
    the atoms' getters return: energy, forces, stress, cell, positions. *)
Theorem capture_then_last (obs obs' : t) :
  __call__ obs = (Ok tt, obs') ->
  exists e f s,
    get_potential_energy (atoms obs) = Ok e
    /\ get_forces (atoms obs) = Ok f
    /\ get_stress (atoms obs) = Ok s
    /\ __getitem__ obs' (-1)
       = Ok (e, f, s, get_cell (atoms obs), get_positions (atoms obs)).
Proof.
  intros Hc.
  destruct (call_ok_inv _ _ _ Hc) as (e & f & s & He & Hf & Hs & ->).
  exists e, f, s. split; [exact He|]. split; [exact Hf|]. split; [exact Hs|].
  unfold __getitem__. cbn [energies forces stresses cells atom_positions].
  rewrite !py_index_app_last. reflexivity.
Qed.

Lemma capture_then_last_witness :
  __call__ (__init__ Demo.resting) = (Ok tt, Demo.once)
  /\ exists e f s,
       get_potential_energy Demo.resting = Ok e
       /\ get_forces Demo.resting = Ok f
       /\ get_stress Demo.resting = Ok s
       /\ __getitem__ Demo.once (-1)
          = Ok (e, f, s, get_cell Demo.resting, get_positions Demo.resting).
Proof.
  assert (E : __call__ (__init__ Demo.resting) = (Ok tt, Demo.once))
    by (vm_compute; reflexivity).
  split; [exact E|].
  exact (capture_then_last (__init__ Demo.resting) Demo.once E).
Defined.

(** X2: a capture, whether it returns or raises, leaves the snapshots
    already in a record as they were: every index from 0 up to the
    length before the capture reads the same tuple after it. *)
Theorem capture_keeps_earlier (obs obs' : t) (r : Result unit) (i : Z) :
  aligned obs ->
  __call__ obs = (r, obs') ->
  0 <= i < Z.of_nat (__len__ obs) ->
  __getitem__ obs' i = __getitem__ obs i.
Proof.
  intros (Hf & Hs & Hp & Hc) Hcall Hi. unfold __len__ in *.
  unfold __getitem__.
  destruct (call_extends _ _ _ Hcall)
    as (_ & (xe & -> & _) & (xf & -> & _) & (xs & -> & _)
        & (xp & -> & _) & (xc & -> & _)).
  rewrite !py_index_nonneg by lia.
  rewrite !lookup_app_l by lia. reflexivity.
Qed.

Lemma capture_keeps_earlier_witness :
  aligned Demo.once
  /\ 0 <= 0 < Z.of_nat (__len__ Demo.once)
  /\ __getitem__ (snd (__call__ Demo.once)) 0 = __getitem__ Demo.once 0.
Proof.
  assert (Hal : aligned Demo.once) by (repeat split).
  assert (Hi : 0 <= 0 < Z.of_nat (__len__ Demo.once)) by (vm_compute; split; congruence).
  split; [exact Hal|]. split; [exact Hi|].
  exact (capture_keeps_earlier Demo.once _ _ 0 Hal
           (surjective_pairing (__call__ Demo.once)) Hi).
Defined.

(** X3: a capture that raises re-raises what the first failing getter
    raised; it has appended the energy if the energy was read and the
    forces if the forces were read too, and it has added no stress, no
    positions and no cell. *)
Theorem capture_raise_partial (obs obs' : t) (e : Exn) :
  __call__ obs = (Raise e, obs') ->
  atoms obs' = atoms obs
  /\ stresses obs' = stresses obs
  /\ atom_positions obs' = atom_positions obs
  /\ cells obs' = cells obs
  /\ match get_potential_energy (atoms obs) with
     | Raise x =>
         x = e /\ energies obs' = energies obs /\ forces obs' = forces obs
     | Ok en =>
         energies obs' = (energies obs ++ [en])%list
         /\ match get_forces (atoms obs) with
            | Raise x => x = e /\ forces obs' = forces obs
            | Ok f =>
                forces obs' = (forces obs ++ [f])%list
                /\ get_stress (atoms obs) = Raise e
            end
     end.
Proof.
  intros Hc.
  destruct (call_raise_inv _ _ _ Hc)
    as [(He & ->)|[(en & He & Hf & ->)|(en & f & He & Hf & Hs & ->)]];
    cbn; rewrite He; try rewrite Hf; repeat split; auto.
Qed.

Lemma capture_raise_partial_witness :
  exists e obs',
    __call__ (__init__ Demo.unstressed) = (Raise e, obs')
    /\ length (energies obs') = 1%nat
    /\ length (forces obs') = 1%nat
    /\ stresses obs' = []
    /\ atom_positions obs' = []
    /\ cells obs' = [].
Proof.
  pose (obs' := snd (__call__ (__init__ Demo.unstressed))).
  assert (E : __call__ (__init__ Demo.unstressed)
              = (Raise (PropertyNotImplementedError
                          "stress property not implemented"), obs'))
    by (vm_compute; reflexivity).
  destruct (capture_raise_partial _ _ _ E) as (_ & Hs & Hp & Hc & _).
  eexists _, obs'. split; [exact E|].
  split; [vm_compute; reflexivity|]. split; [vm_compute; reflexivity|].
  split; [exact Hs|]. split; [exact Hp | exact Hc].
Defined.

(** X4: after a capture that raised once the energy was read, [len]
    counts one snapshot more, but the index of that snapshot raises
    IndexError; and [obs[-1]], when the record had a snapshot before,
    returns the new energy with the stress, cell and positions of the
    snapshot before. *)
Theorem raised_capture_index (obs obs' : t) (e : Exn) (en : float) :
  aligned obs ->
  __call__ obs = (Raise e, obs') ->
  get_potential_energy (atoms obs) = Ok en ->
  __len__ obs' = S (__len__ obs)
  /\ (exists msg,
         __getitem__ obs' (Z.of_nat (__len__ obs)) = Raise (IndexError msg))
  /\ forall e0 f0 s0 c0 p0,
       __getitem__ obs (-1) = Ok (e0, f0, s0, c0, p0) ->
       exists f1, __getitem__ obs' (-1) = Ok (en, f1, s0, c0, p0).
Proof.
  intros (Hf & Hs & Hp & Hc) Hcall He. unfold __len__ in *.
  assert (Hlast : forall e0 f0 s0 c0 p0,
             __getitem__ obs (-1) = Ok (e0, f0, s0, c0, p0) ->
             py_index (forces obs) (-1) = Ok f0
             /\ py_index (stresses obs) (-1) = Ok s0
             /\ py_index (cells obs) (-1) = Ok c0
             /\ py_index (atom_positions obs) (-1) = Ok p0).
  { intros e0 f0 s0 c0 p0. unfold __getitem__.
    destruct (py_index (energies obs) (-1)); [|discriminate].
    destruct (py_index (forces obs) (-1)); [|discriminate].
    destruct (py_index (stresses obs) (-1)); [|discriminate].
    destruct (py_index (cells obs) (-1)); [|discriminate].
    destruct (py_index (atom_positions obs) (-1)); [|discriminate].
    intros [= _ -> -> -> ->]. repeat split. }
  destruct (call_raise_inv _ _ _ Hcall)
    as [(He' & _)|[(en' & He' & _ & ->)|(en' & f & He' & _ & _ & ->)]];
    [congruence | |];
    rewrite He in He'; injection He' as <-; cbn;
    (split; [rewrite length_app; cbn; lia|]); split.
  - destruct (index_error_is (Z.of_nat (length (energies obs)))) as [msg Hmsg].
    exists msg. unfold __getitem__. cbn.
    rewrite !py_index_nonneg by lia. rewrite Nat2Z.id.
    rewrite lookup_app_r, Nat.sub_diag by lia. cbn.
    replace (forces obs !! length (energies obs)) with (@None matrix)
      by (symmetry; apply lookup_ge_None; lia).
    rewrite Hmsg. reflexivity.
  - intros e0 f0 s0 c0 p0 Hget.
    destruct (Hlast _ _ _ _ _ Hget) as (Hf0 & Hs0 & Hc0 & Hp0).
    exists f0. unfold __getitem__. cbn.
    rewrite py_index_app_last, Hf0, Hs0, Hc0, Hp0. reflexivity.
  - destruct (index_error_is (Z.of_nat (length (energies obs)))) as [msg Hmsg].
    exists msg. unfold __getitem__. cbn.
    rewrite !py_index_nonneg by lia. rewrite Nat2Z.id.
    rewrite lookup_app_r, Nat.sub_diag by lia. cbn.
    rewrite lookup_app_r, Hf, Nat.sub_diag by lia. cbn.
    replace (stresses obs !! length (energies obs)) with (@None vec)
      by (symmetry; apply lookup_ge_None; lia).
    rewrite Hmsg. reflexivity.
  - intros e0 f0 s0 c0 p0 Hget.
    destruct (Hlast _ _ _ _ _ Hget) as (Hf0 & Hs0 & Hc0 & Hp0).
    exists f. unfold __getitem__. cbn.
    rewrite !py_index_app_last, Hs0, Hc0, Hp0. reflexivity.
Qed.

End ObserverExtras.

Lemma raised_capture_index_witness :
  aligned Demo.strained
  /\ get_potential_energy (TrajectoryObserver.atoms Demo.strained) = Ok 0%float
  /\ is_ok (fst (TrajectoryObserver.__call__ Demo.strained)) = false
  /\ TrajectoryObserver.__len__ (snd (TrajectoryObserver.__call__ Demo.strained))
     = 2%nat
  /\ exists msg,
       TrajectoryObserver.__getitem__
         (snd (TrajectoryObserver.__call__ Demo.strained)) 1
       = Raise (IndexError msg).
Proof.
  assert (Hal : aligned Demo.strained) by (repeat split).
  assert (He : get_potential_energy (TrajectoryObserver.atoms Demo.strained)
               = Ok 0%float) by (vm_compute; reflexivity).
  assert (E : TrajectoryObserver.__call__ Demo.strained
              = (Raise (PropertyNotImplementedError
                          "stress property not implemented"),
                 snd (TrajectoryObserver.__call__ Demo.strained)))
    by (vm_compute; reflexivity).
  destruct (raised_capture_index _ _ _ _ Hal E He) as (Hl & Hidx & _).
  split; [exact Hal|]. split; [exact He|].
  split; [vm_compute; reflexivity|]. split; [exact Hl | exact Hidx].
Defined.

Section ObserverInvariants.
Import TrajectoryObserver.

Lemma visited_staggered (obs : t) : visited obs -> staggered obs.
Proof.
  induction 1 as [a | obs obs' r _ IH Hc | obs a _ IH].
  - repeat split; cbn; lia.
  - destruct IH as (H1 & H2 & H3 & H4). unfold staggered.
    destruct r as [u|e].
    + destruct (call_ok_inv _ _ _ Hc) as (en & f & s & _ & _ & _ & ->).
      cbn. rewrite !length_app. cbn. lia.
    + destruct (call_raise_inv _ _ _ Hc)
        as [(_ & ->)|[(en & _ & _ & ->)|(en & f & _ & _ & _ & ->)]];
        cbn; rewrite ?length_app; cbn; lia.
  - exact IH.
Qed.

(** X5: on every observer, however its captures ended, no sequence is
    longer than the one [__call__] fills before it, so [len] bounds them
    all, and a non-negative index can be read exactly when it is below
    the number of complete snapshots, the length of [cells]. *)
Theorem visited_getitem (obs : t) (i : Z) :
  visited obs ->
  0 <= i ->
  staggered obs
  /\ (is_ok (__getitem__ obs i) = true
      <-> i < Z.of_nat (length (cells obs))).
Proof.
  intros Hv Hi. pose proof (visited_staggered _ Hv) as Hst.
  split; [exact Hst|].
  destruct Hst as (H1 & H2 & H3 & H4).
  unfold __getitem__. rewrite !py_index_nonneg by lia. split.
  - intros Hok.
    destruct (energies obs !! Z.to_nat i); [|discriminate].
    destruct (forces obs !! Z.to_nat i); [|discriminate].
    destruct (stresses obs !! Z.to_nat i); [|discriminate].
    destruct (cells obs !! Z.to_nat i) eqn:Hc; [|discriminate].
    apply lookup_lt_Some in Hc. lia.
  - intros Hlt.
    destruct (lookup_lt_is_Some_2 (energies obs) (Z.to_nat i)) as [? ->]; [lia|].
    destruct (lookup_lt_is_Some_2 (forces obs) (Z.to_nat i)) as [? ->]; [lia|].
    destruct (lookup_lt_is_Some_2 (stresses obs) (Z.to_nat i)) as [? ->]; [lia|].
    destruct (lookup_lt_is_Some_2 (cells obs) (Z.to_nat i)) as [? ->]; [lia|].
    destruct (lookup_lt_is_Some_2 (atom_positions obs) (Z.to_nat i)) as [? ->];
      [lia|].
    reflexivity.
Qed.

Lemma visited_getitem_witness :
  visited (snd (__call__ Demo.strained))
  /\ staggered (snd (__call__ Demo.strained))
  /\ is_ok (__getitem__ (snd (__call__ Demo.strained)) 0) = true
  /\ is_ok (__getitem__ (snd (__call__ Demo.strained)) 1) = false.
Proof.
  assert (Hv : visited (snd (__call__ Demo.strained))).
  { eapply visit_capture; [|apply surjective_pairing].
    apply visit_move. eapply visit_capture; [apply visit_init|].
    apply (surjective_pairing (__call__ (__init__ Demo.resting))). }
  split; [exact Hv|].
  destruct (visited_getitem _ 0 Hv ltac:(lia)) as [Hst H0].
  destruct (visited_getitem _ 1 Hv ltac:(lia)) as [_ H1].
  split; [exact Hst|]. split.
  - apply H0. vm_compute. reflexivity.
  - apply not_true_is_false. intros E.
    apply (proj1 H1) in E. vm_compute in E. discriminate E.
Defined.

(** X6: a new observer is empty: its length is 0 and every index, of
    either sign and of any size, raises IndexError. *)
Theorem new_observer_empty (a : Atoms) (i : Z) :
  __len__ (__init__ a) = 0%nat
  /\ exists msg, __getitem__ (__init__ a) i = Raise (IndexError msg).
Proof.
  split; [reflexivity|].
  assert (Hr : in_range (Z.of_nat (length (@nil float))) i = false).
  { unfold in_range. apply andb_false_iff.
    destruct (Z.ltb_spec i (Z.of_nat (length (@nil float)))) as [Hlt|Hge];
      [left; apply Z.leb_gt; cbn in *; lia | right; reflexivity]. }
  destruct (index_error_is i) as [msg Hmsg]. exists msg.
  unfold __getitem__. cbn [energies __init__].
  rewrite (py_index_out [] i Hr), Hmsg. reflexivity.
Qed.

End ObserverInvariants.

(** ** The driver's error paths and its last snapshot *)

Section DriverExtraFacts.
Context `{Toolkit}.
Import TrajectoryObserver.

Lemma set_positions_calc (a a' : Atoms) (p : matrix) :
  set_positions a p = Ok a' -> calc a' = calc a.
Proof.
  unfold set_positions. destruct (Nat.eqb _ _); [|discriminate].
  intros [= <-]. reflexivity.
Qed.

(** The optimizer's moves leave the calculator attached. *)
Lemma run_keeps_calc (script : list OptAction) :
  forall obs w obs' w',
    run script obs w = (Ok obs', w') ->
    calc (atoms obs') = calc (atoms obs).
Proof.
  induction script as [|act rest IH]; intros obs w obs' w' Hrun.
  - cbn in Hrun. injection Hrun as <- _. reflexivity.
  - destruct act; cbn [run] in Hrun;
      unfold bind, ret, raise, lift_result, emit, print, modify,
        call_observer in Hrun; cbn beta iota in Hrun.
    + destruct (set_positions (atoms obs) p) as [a|e] eqn:Hp; [|discriminate].
      apply IH in Hrun. rewrite Hrun. cbn. eapply set_positions_calc; eauto.
    + apply IH in Hrun. exact Hrun.
    + eapply IH; eauto.
    + destruct (__call__ obs) as [[u|e] obs1] eqn:Hc; [|discriminate].
      apply IH in Hrun. rewrite Hrun.
      destruct (call_ok_inv _ _ _ Hc) as (? & ? & ? & _ & _ & _ & ->).
      reflexivity.
    + discriminate.
Qed.

(** When [relax] returns, its observer is the result of the final
    capture, made on atoms that carry the driver's calculator. *)
Lemma relax_ok_last (self : RelaxCalc.t) (structure : nat) (w w' : World)
    (obs : t) :
  RelaxCalc.relax self structure w = (Ok obs, w') ->
  calc (atoms obs) = Some (RelaxCalc.calculator self)
  /\ exists obs1, __call__ obs1 = (Ok tt, obs).
Proof.
  intros Hr.
  apply relax_inv in Hr
    as [(_ & [=] & _)|(s & _ & [(_ & [=] & _)|(a & w3 & _ & Hb & _)])].
  apply block_inv in Hb as [(_ & [=] & _)|(opt & rr & w1 & _ & Hrun & Hrr)].
  destruct rr as [obs1|e]; [|destruct Hrr as [[=] _]].
  destruct Hrr as [_ Hres].
  destruct (__call__ obs1) as [[[]|e] obs2] eqn:Hc; [|discriminate].
  injection Hres as <-.
  apply run_keeps_calc in Hrun. cbn in Hrun.
  split; [|exists obs1; exact Hc].
  destruct (call_ok_inv _ _ _ Hc) as (? & ? & ? & _ & _ & _ & ->).
  exact Hrun.
Qed.

Lemma relax_ok_snapshot (self : RelaxCalc.t) (structure : nat) (w w' : World)
    (obs : t) :
  RelaxCalc.relax self structure w = (Ok obs, w') ->
  exists e f s,
    calc_energy (RelaxCalc.calculator self)
      (atom_list (atoms obs)) (cell (atoms obs)) = Ok e
    /\ calc_forces (RelaxCalc.calculator self)
         (atom_list (atoms obs)) (cell (atoms obs)) = Ok f
    /\ calc_stress (RelaxCalc.calculator self)
         (atom_list (atoms obs)) (cell (atoms obs)) = Ok s
    /\ __getitem__ obs (-1)
       = Ok (e, f, s, get_cell (atoms obs), get_positions (atoms obs)).
Proof.
  intros Hr. destruct (relax_ok_last _ _ _ _ _ Hr) as (Hcalc & obs1 & Hc).
  destruct (call_ok_inv _ _ _ Hc) as (e & f & s & He & Hf & Hs & Hobs).
  assert (Ha : atoms obs = atoms obs1) by (rewrite Hobs; reflexivity).
  rewrite Ha in Hcalc |- *.
  unfold get_potential_energy, get_forces, get_stress in He, Hf, Hs.
  rewrite Hcalc in He, Hf, Hs.
  exists e, f, s. split; [exact He|]. split; [exact Hf|]. split; [exact Hs|].
  rewrite Hobs. unfold __getitem__.
  cbn [energies forces stresses cells atom_positions].
  rewrite !py_index_app_last. reflexivity.
Qed.

(** X7: when [calc] returns, the structure it hands back is the
    conversion of the atoms of the record's last snapshot: [obs[-1]]
    holds the energy, forces and stress the driver's calculator gives
    for exactly that geometry, with its cell and positions. *)
Theorem calc_final_is_last_snapshot (self : RelaxCalc.t) (structure : nat)
    (w w' : World) (d : gmap string PyVal) :
  RelaxCalc.calc self structure w = (Ok d, w') ->
  exists obs w1 obj fs e f s,
    RelaxCalc.relax self structure w = (Ok obs, w1)
    /\ get_structure (atoms obs) = Ok fs
    /\ d !! "final_structure" = Some (VObject obj)
    /\ heap w' !! obj = Some fs
    /\ calc_energy (RelaxCalc.calculator self)
         (atom_list (atoms obs)) (cell (atoms obs)) = Ok e
    /\ calc_forces (RelaxCalc.calculator self)
         (atom_list (atoms obs)) (cell (atoms obs)) = Ok f
    /\ calc_stress (RelaxCalc.calculator self)
         (atom_list (atoms obs)) (cell (atoms obs)) = Ok s
    /\ __getitem__ obs (-1)
       = Ok (e, f, s, get_cell (atoms obs), get_positions (atoms obs)).
Proof.
  intros Hc.
  apply calc_inv in Hc
    as [(e & _ & [=])
       |(obs & w1 & Hrel & [(f & _ & _ & [=] & _)|(w2 & Hsv & Hfin)])].
  destruct (get_structure (atoms obs)) as [fs|e] eqn:Hgs;
    [|destruct Hfin as [[=] _]].
  destruct Hfin as [[= ->] ->].
  destruct (relax_ok_snapshot _ _ _ _ _ Hrel) as (e & f & s & He & Hf & Hs & Hg).
  exists obs, w1, (fresh (dom (heap w2))), fs, e, f, s.
  split; [exact Hrel|]. split; [exact Hgs|].
  split; [reflexivity|]. split; [cbn; apply lookup_insert_eq|].
  auto.
Qed.

(** X8: with a calculator one of whose results is never available,
    [calc] never returns, and it writes no file. *)
Theorem calc_blind_calculator (self : RelaxCalc.t) (structure : nat)
    (w w' : World) (r : Result (gmap string PyVal)) :
  blind (RelaxCalc.calculator self) ->
  RelaxCalc.calc self structure w = (r, w') ->
  is_ok r = false /\ files w' = files w.
Proof.
  intros Hblind Hc.
  apply calc_inv in Hc as [(e & Hrel & ->)|(obs & w1 & Hrel & _)].
  - apply relax_frame in Hrel as (_ & Hf & _). split; [reflexivity | exact Hf].
  - exfalso.
    destruct (relax_ok_snapshot _ _ _ _ _ Hrel) as (e & f & s & He & Hf & Hs & _).
    destruct Hblind as [Hb|[Hb|Hb]];
      specialize (Hb (atom_list (atoms obs)) (cell (atoms obs)));
      [rewrite He in Hb | rewrite Hf in Hb | rewrite Hs in Hb]; discriminate.
Qed.

(** X9: when the trajectory path cannot be opened, [calc] raises an
    OSError after the whole relaxation has run, final capture included:
    nothing is written, nothing is converted back, and no result is
    returned. *)
Theorem calc_unwritable_path (self : RelaxCalc.t) (structure : nat)
    (w w1 : World) (obs : t) (filename : string) :
  RelaxCalc.traj_file self = Some filename ->
  writable w filename = false ->
  RelaxCalc.relax self structure w = (Ok obs, w1) ->
  (exists msg, RelaxCalc.calc self structure w = (Raise (OSError msg), w1))
  /\ files w1 = files w
  /\ heap w1 = heap w
  /\ exists k,
       trace w1 = (trace w ++ EvGetAtoms structure
                     :: repeat EvObserverTick k ++ [EvFinalCapture])%list.
Proof.
  intros Hf Hw Hrel.
  pose proof (relax_frame _ _ _ _ _ Hrel) as (Hh & Hfiles & Hwr & _).
  pose proof (relax_ok_inv _ _ _ _ _ Hrel) as (k & Ht & _).
  split; [|split; [exact Hfiles | split; [exact Hh | exists k; exact Ht]]].
  exists filename.
  unfold RelaxCalc.calc, bind. rewrite Hrel, Hf.
  unfold save, open_wb_dump. rewrite Hwr, Hw. reflexivity.
Qed.

(** X10: when the conversion back raises, [calc] raises the same
    exception, but the trajectory file has been written already, with
    the five sequences of the whole record and the atomic numbers. *)
Theorem calc_conversion_back_error (self : RelaxCalc.t) (structure : nat)
    (w w1 : World) (obs : t) (filename : string) (e : Exn) :
  RelaxCalc.traj_file self = Some filename ->
  writable w filename = true ->
  RelaxCalc.relax self structure w = (Ok obs, w1) ->
  get_structure (atoms obs) = Raise e ->
  exists w',
    RelaxCalc.calc self structure w = (Raise e, w')
    /\ files w' = <[filename := pickle_dump (trajectory_record obs)]> (files w)
    /\ (1 <= length (Out.energy (trajectory_record obs)))%nat
    /\ heap w' = heap w.
Proof.
  intros Hf Hw Hrel Hgs.
  pose proof (relax_frame _ _ _ _ _ Hrel) as (Hh & Hfiles & Hwr & _).
  unfold RelaxCalc.calc, bind. rewrite Hrel, Hf.
  unfold save, open_wb_dump. rewrite Hwr, Hw.
  unfold emit, modify, lift_result. cbn. rewrite Hgs.
  eexists. split; [reflexivity|]. cbn. rewrite Hfiles, Hh.
  split; [reflexivity|]. split; [|reflexivity].
  pose proof (relax_ok_inv _ _ _ _ _ Hrel) as (k & _ & Hl & _).
  unfold __len__ in Hl. cbn. lia.
Qed.

(** X11: when the conversion of the input raises, [calc] raises the
    same exception at once: no StringIO is made, [sys.stdout] is not
    redirected, and nothing but the attempt is on the trace. *)
Theorem calc_conversion_error (self : RelaxCalc.t) (structure : nat)
    (w : World) (s : Structure) (e : Exn) :
  heap w !! structure = Some s ->
  get_atoms s = Raise e ->
  RelaxCalc.calc self structure w
  = (Raise e, set_trace w (trace w ++ [EvGetAtoms structure])).
Proof.
  intros Hs Ha.
  unfold RelaxCalc.calc, RelaxCalc.relax, bind, deref, emit, modify,
    lift_result.
  rewrite Hs. cbn beta iota. rewrite Ha. reflexivity.
Qed.

End DriverExtraFacts.

Lemma calc_final_is_last_snapshot_witness :
  RelaxCalc.calc (Demo.relaxer None) 0%nat Demo.world
  = (Ok (Demo.returned None), snd (Demo.called None))
  /\ exists obs w1 obj fs e f s,
       RelaxCalc.relax (Demo.relaxer None) 0%nat Demo.world = (Ok obs, w1)
       /\ @get_structure Demo.toolkit (TrajectoryObserver.atoms obs) = Ok fs
       /\ Demo.returned None !! "final_structure" = Some (VObject obj)
       /\ heap (snd (Demo.called None)) !! obj = Some fs
       /\ calc_energy (RelaxCalc.calculator (Demo.relaxer None))
            (atom_list (TrajectoryObserver.atoms obs))
            (cell (TrajectoryObserver.atoms obs)) = Ok e
       /\ calc_forces (RelaxCalc.calculator (Demo.relaxer None))
            (atom_list (TrajectoryObserver.atoms obs))
            (cell (TrajectoryObserver.atoms obs)) = Ok f
       /\ calc_stress (RelaxCalc.calculator (Demo.relaxer None))
            (atom_list (TrajectoryObserver.atoms obs))
            (cell (TrajectoryObserver.atoms obs)) = Ok s
       /\ TrajectoryObserver.__getitem__ obs (-1)
          = Ok (e, f, s, get_cell (TrajectoryObserver.atoms obs),
                get_positions (TrajectoryObserver.atoms obs)).
Proof.
  assert (E : RelaxCalc.calc (Demo.relaxer None) 0%nat Demo.world
              = (Ok (Demo.returned None), snd (Demo.called None)))
    by (vm_compute; reflexivity).
  split; [exact E|].
  exact (calc_final_is_last_snapshot _ _ _ _ _ E).
Defined.

Lemma calc_blind_calculator_witness :
  blind Demo.no_stress
  /\ is_ok (fst (RelaxCalc.calc (Demo.stressless (Some "t.pkl")) 0%nat Demo.world))
     = false
  /\ files (snd (RelaxCalc.calc (Demo.stressless (Some "t.pkl")) 0%nat Demo.world))
     = files Demo.world.
Proof.
  assert (Hb : blind Demo.no_stress)
    by (right; right; intros ats cl; reflexivity).
  split; [exact Hb|].
  exact (calc_blind_calculator (Demo.stressless (Some "t.pkl")) 0%nat Demo.world
           _ _ Hb (surjective_pairing _)).
Defined.

Lemma calc_unwritable_path_witness :
  writable Demo.world "/proc/locked" = false
  /\ RelaxCalc.relax (Demo.relaxer (Some "/proc/locked")) 0%nat Demo.world
     = (Ok Demo.relaxed_obs, snd Demo.relaxed)
  /\ (exists msg,
         RelaxCalc.calc (Demo.relaxer (Some "/proc/locked")) 0%nat Demo.world
         = (Raise (OSError msg), snd Demo.relaxed))
  /\ files (snd Demo.relaxed) = files Demo.world.
Proof.
  assert (Hw : writable Demo.world "/proc/locked" = false)
    by (vm_compute; reflexivity).
  assert (E : RelaxCalc.relax (Demo.relaxer (Some "/proc/locked")) 0%nat Demo.world
              = (Ok Demo.relaxed_obs, snd Demo.relaxed))
    by (vm_compute; reflexivity).
  destruct (calc_unwritable_path (Demo.relaxer (Some "/proc/locked")) 0%nat
              Demo.world _ _ "/proc/locked" eq_refl Hw E)
    as (Hc & Hf & _).
  split; [exact Hw|]. split; [exact E|]. split; [exact Hc | exact Hf].
Defined.

Lemma calc_conversion_back_error_witness :
  RelaxCalc.relax (H := Demo.brittle) (Demo.relaxer (Some "t.pkl")) 0%nat
    Demo.brittle_world
  = (Ok Demo.brittle_obs, snd Demo.brittle_relaxed)
  /\ exists w',
       RelaxCalc.calc (H := Demo.brittle) (Demo.relaxer (Some "t.pkl")) 0%nat
         Demo.brittle_world
       = (Raise (ValueError "cannot convert"), w')
       /\ files w'
          = <["t.pkl" := Demo.dump (trajectory_record Demo.brittle_obs)]>
              (files Demo.brittle_world)
       /\ (1 <= length (Out.energy (trajectory_record Demo.brittle_obs)))%nat
       /\ heap w' = heap Demo.brittle_world.
Proof.
  assert (E : RelaxCalc.relax (H := Demo.brittle) (Demo.relaxer (Some "t.pkl"))
                0%nat Demo.brittle_world
              = (Ok Demo.brittle_obs, snd Demo.brittle_relaxed))
    by (vm_compute; reflexivity).
  split; [exact E|].
  exact (calc_conversion_back_error (H := Demo.brittle)
           (Demo.relaxer (Some "t.pkl")) 0%nat Demo.brittle_world _ _ "t.pkl"
           (ValueError "cannot convert") eq_refl eq_refl E eq_refl).
Defined.

Lemma calc_conversion_error_witness :
  heap Demo.brittle_world !! 1%nat = Some Demo.vacuum
  /\ @get_atoms Demo.brittle Demo.vacuum = Raise (ValueError "no sites")
  /\ RelaxCalc.calc (H := Demo.brittle) (Demo.relaxer None) 1%nat
       Demo.brittle_world
     = (Raise (ValueError "no sites"),
        set_trace Demo.brittle_world
          (trace Demo.brittle_world ++ [EvGetAtoms 1])).
Proof.
  assert (Hin : heap Demo.brittle_world !! 1%nat = Some Demo.vacuum)
    by (vm_compute; reflexivity).
  split; [exact Hin|]. split; [reflexivity|].
  exact (calc_conversion_error (H := Demo.brittle) (Demo.relaxer None) 1%nat
           Demo.brittle_world Demo.vacuum (ValueError "no sites") Hin eq_refl).
Defined.

(** ** Calling again *)

Section RepeatFacts.
Context `{Toolkit}.
Import TrajectoryObserver.

(** What a run returns or raises does not depend on the process it runs
    in. *)
Lemma run_result_indep (script : list OptAction) :
  forall obs w w2, fst (run script obs w) = fst (run script obs w2).
Proof.
  induction script as [|act rest IH]; intros obs w w2; [reflexivity|].
  destruct act; cbn [run];
    unfold bind, ret, raise, lift_result, emit, print, modify, call_observer;
    cbn beta iota.
  - destruct (set_positions (atoms obs) p) as [a|e]; [apply IH | reflexivity].
  - apply IH.
  - apply IH.
  - destruct (__call__ obs) as [[u|e] obs1]; [apply IH | reflexivity].
  - reflexivity.
Qed.

Lemma block_result_indep (self : RelaxCalc.t) (a : Atoms) (w w2 : World) :
  fst (block self a w) = fst (block self a w2).
Proof.
  unfold block, bind.
  destruct (RelaxCalc.opt_class self) as [[o|c]|]; cbn [instantiate];
    unfold ret, raise; cbn beta iota; [| |reflexivity].
  - pose proof (run_result_indep
                  (opt_run (ase_optimizer o) a (RelaxCalc.interval self)
                     (RelaxCalc.fmax self) (RelaxCalc.steps self))
                  (__init__ a) w w2) as Hrun.
    destruct (run _ (__init__ a) w) as [[o1|e1] w1];
      destruct (run _ (__init__ a) w2) as [[o2|e2] w3];
      cbn in Hrun; try discriminate; injection Hrun as <-; [|reflexivity].
    unfold emit, modify, call_observer. cbn beta iota.
    destruct (__call__ o1) as [[u|e] o3]; reflexivity.
  - pose proof (run_result_indep
                  (opt_run c a (RelaxCalc.interval self)
                     (RelaxCalc.fmax self) (RelaxCalc.steps self))
                  (__init__ a) w w2) as Hrun.
    destruct (run _ (__init__ a) w) as [[o1|e1] w1];
      destruct (run _ (__init__ a) w2) as [[o2|e2] w3];
      cbn in Hrun; try discriminate; injection Hrun as <-; [|reflexivity].
    unfold emit, modify, call_observer. cbn beta iota.
    destruct (__call__ o1) as [[u|e] o3]; reflexivity.
Qed.

(** What [relax] returns or raises depends on the process only through
    the structure it is given. *)
Lemma relax_result_indep (self : RelaxCalc.t) (structure : nat) (w w2 : World) :
  heap w2 !! structure = heap w !! structure ->
  fst (RelaxCalc.relax self structure w2) = fst (RelaxCalc.relax self structure w).
Proof.
  intros Hh. rewrite !relax_unfold.
  unfold bind, deref, emit, modify, lift_result, StringIO_new, redirect_stdout.
  rewrite Hh. destruct (heap w !! structure) as [s|]; [|reflexivity].
  cbn beta iota. destruct (get_atoms s) as [a|e]; [|reflexivity].
  cbn beta iota.
  match goal with
  | |- fst (let '(_, _) := block ?x ?y ?z1 in _)
       = fst (let '(_, _) := block ?x ?y ?z2 in _) =>
      pose proof (block_result_indep x y z1 z2) as Hb;
      destruct (block x y z1) as [r1 v1]; destruct (block x y z2) as [r2 v2]
  end.
  exact Hb.
Qed.

Lemma saved_writable (self : RelaxCalc.t) (obs : t) (w1 w2 : World) :
  saved self obs w1 w2 ->
  writable w2 = writable w1
  /\ files w2 = match RelaxCalc.traj_file self with
                | Some filename =>
                    <[filename := pickle_dump (out obs)]> (files w1)
                | None => files w1
                end
  /\ match RelaxCalc.traj_file self with
     | Some filename => writable w1 filename = true
     | None => True
     end.
Proof.
  unfold saved. destruct (RelaxCalc.traj_file self);
    [intros [Hw ->] | intros ->]; repeat split; auto.
Qed.

(** [calc] returns once the relaxation has returned, the trajectory
    path, if any, can be written and the conversion back succeeds. *)
Lemma calc_ok_intro (self : RelaxCalc.t) (structure : nat) (w w1 : World)
    (obs : t) (fs : Structure) :
  RelaxCalc.relax self structure w = (Ok obs, w1) ->
  match RelaxCalc.traj_file self with
  | Some filename => writable w1 filename = true
  | None => True
  end ->
  get_structure (atoms obs) = Ok fs ->
  exists w',
    RelaxCalc.calc self structure w
    = (Ok (result_dict (fresh (dom (heap w1))) fs), w')
    /\ heap w' = <[fresh (dom (heap w1)) := fs]> (heap w1)
    /\ files w' = match RelaxCalc.traj_file self with
                  | Some filename =>
                      <[filename := pickle_dump (out obs)]> (files w1)
                  | None => files w1
                  end.
Proof.
  intros Hrel Hw Hgs. unfold RelaxCalc.calc, bind. rewrite Hrel.
  destruct (RelaxCalc.traj_file self) as [filename|].
  - unfold save, open_wb_dump. rewrite Hw.
    unfold emit, modify, lift_result, alloc, ret. cbn. rewrite Hgs.
    eexists. split; [reflexivity|]. split; reflexivity.
  - unfold emit, modify, lift_result, alloc, ret. cbn. rewrite Hgs.
    eexists. split; [reflexivity|]. split; reflexivity.
Qed.

(** X12: a call that returned can be repeated on the same structure:
    the second call returns too, with the same seven lattice numbers and
    a final structure equal to the first one, stored as another object;
    the trajectory file, if any, is written again with the same
    content. *)
Theorem calc_twice (self : RelaxCalc.t) (structure : nat) (w w1 : World)
    (d : gmap string PyVal) :
  RelaxCalc.calc self structure w = (Ok d, w1) ->
  exists d' w2 obj obj' fs,
    RelaxCalc.calc self structure w1 = (Ok d', w2)
    /\ d !! "final_structure" = Some (VObject obj)
    /\ d' !! "final_structure" = Some (VObject obj')
    /\ obj <> obj'
    /\ heap w2 !! obj = Some fs
    /\ heap w2 !! obj' = Some fs
    /\ (forall k, k <> "final_structure" -> d' !! k = d !! k)
    /\ files w2 = files w1.
Proof.
  intros Hc.
  apply calc_inv in Hc
    as [(e & _ & [=])
       |(obs & wr & Hrel & [(f & _ & _ & [=] & _)|(ws & Hsv & Hfin)])].
  destruct (get_structure (atoms obs)) as [fs|e] eqn:Hgs;
    [|destruct Hfin as [[=] _]].
  destruct Hfin as [[= ->] ->].
  pose proof (relax_frame _ _ _ _ _ Hrel) as (Hh & _ & Hwr & _).
  pose proof (saved_frame _ _ _ _ Hsv) as (Hhs & _).
  pose proof (saved_writable _ _ _ _ Hsv) as (Hws & Hfs & Hwt).
  pose proof (relax_ok_inv _ _ _ _ _ Hrel)
    as (_ & _ & _ & _ & s & _ & _ & Hs & _).
  set (obj := fresh (dom (heap ws))) in *.
  set (w1 := set_heap (set_trace ws (trace ws ++ [EvGetStructure]))
               (<[obj := fs]> (heap ws))).
  assert (Hobj : heap ws !! obj = None)
    by (apply not_elem_of_dom, is_fresh).
  assert (Hin : heap w1 !! structure = heap w !! structure).
  { subst w1. cbn. rewrite Hhs, Hh. apply lookup_insert_ne.
    intros Heq. rewrite Heq, Hhs, Hh, Hs in Hobj. discriminate. }
  pose proof (relax_result_indep self structure w w1 Hin) as Hfst.
  rewrite Hrel in Hfst. cbn [fst] in Hfst.
  destruct (RelaxCalc.relax self structure w1) as [r' wr'] eqn:Hrel'.
  cbn [fst] in Hfst. subst r'.
  pose proof (relax_frame _ _ _ _ _ Hrel') as (Hh' & Hf' & Hwr' & _).
  destruct (calc_ok_intro self structure w1 wr' obs fs Hrel') as (w2 & Hc2 & Hh2 & Hf2).
  { destruct (RelaxCalc.traj_file self) as [filename|]; [|exact I].
    rewrite Hwr'. subst w1. cbn. rewrite Hws. exact Hwt. }
  { exact Hgs. }
  exists (result_dict (fresh (dom (heap wr'))) fs), w2, obj,
    (fresh (dom (heap wr'))), fs.
  assert (Hne : obj <> fresh (dom (heap wr'))).
  { intros Heq. apply (is_fresh (dom (heap wr'))). rewrite <- Heq, Hh'.
    subst w1. cbn. apply elem_of_dom. rewrite lookup_insert_eq. eauto. }
  split; [exact Hc2|]. split; [reflexivity|]. split; [reflexivity|].
  split; [exact Hne|]. split.
  { rewrite Hh2.
    rewrite lookup_insert_ne by (intros Heq; apply Hne; symmetry; exact Heq).
    rewrite Hh'. subst w1. cbn. apply lookup_insert_eq. }
  split; [rewrite Hh2; apply lookup_insert_eq|]. split.
  { intros k Hk. unfold result_dict.
    rewrite !(lookup_insert_ne _ "final_structure") by congruence.
    reflexivity. }
  rewrite Hf2, Hf'. subst w1. cbn. rewrite Hfs.
  destruct (RelaxCalc.traj_file self) as [filename|]; [|reflexivity].
  apply insert_insert_eq.
Qed.

(** X14: saving twice to one path leaves the pickle of the second
    observer alone in the file: the first content is replaced, not
    extended. *)
Theorem save_twice (obs1 obs2 : t) (filename : string) (w : World) :
  writable w filename = true ->
  exists w1 w2,
    save obs1 filename w = (Ok tt, w1)
    /\ save obs2 filename w1 = (Ok tt, w2)
    /\ files w2 = <[filename := pickle_dump (out obs2)]> (files w)
    /\ trace w2 = (trace w ++ [EvWrite filename; EvWrite filename])%list.
Proof.
  intros Hw. unfold save, open_wb_dump. rewrite Hw.
  eexists _, _. split; [reflexivity|]. cbn. rewrite Hw.
  split; [reflexivity|]. cbn.
  split; [apply insert_insert_eq|]. rewrite <- app_assoc. reflexivity.
Qed.

End RepeatFacts.

(** ** The registry *)

(** X13: for a string the constructor always returns a driver; the
    driver holds an optimizer class exactly when the string is, letter
    for letter, one of the eight names of the registry, and then it
    holds the ASE class of that name. *)
Theorem string_optimizer_accepted (calculator : Calculator) (name : string)
    (fmax : float) (steps : Z) (traj_file : option string) (interval : Z) :
  exists self,
    RelaxCalc.__init__ calculator (PyStr name) fmax steps traj_file interval
    = Ok self
    /\ (is_Some (RelaxCalc.opt_class self) <-> name ∈ optimizer_names)
    /\ RelaxCalc.opt_class self = AseClass <$> OPTIMIZERS !! name
    /\ map (fun n => OPTIMIZERS !! n) optimizer_names
       = map Some [FIRE; BFGS; LBFGS; LBFGSLineSearch; MDMin; SciPyFminCG;
                   SciPyFminBFGS; BFGSLineSearch].
Proof.
  eexists. split; [reflexivity|]. cbn [RelaxCalc.opt_class].
  split; [|split; [reflexivity | vm_compute; reflexivity]].
  rewrite fmap_is_Some, <- elem_of_dom.
  unfold OPTIMIZERS, optimizer_names.
  rewrite !dom_insert_L, dom_empty_L, !elem_of_cons, elem_of_nil.
  set_solver.
Qed.

Lemma calc_twice_witness :
  RelaxCalc.calc (Demo.relaxer (Some "old.pkl")) 0%nat Demo.world
  = (Ok (Demo.returned (Some "old.pkl")), snd (Demo.called (Some "old.pkl")))
  /\ exists d' w2 obj obj' fs,
       RelaxCalc.calc (Demo.relaxer (Some "old.pkl")) 0%nat
         (snd (Demo.called (Some "old.pkl"))) = (Ok d', w2)
       /\ Demo.returned (Some "old.pkl") !! "final_structure" = Some (VObject obj)
       /\ d' !! "final_structure" = Some (VObject obj')
       /\ obj <> obj'
       /\ heap w2 !! obj = Some fs
       /\ heap w2 !! obj' = Some fs
       /\ (forall k, k <> "final_structure" ->
                     d' !! k = Demo.returned (Some "old.pkl") !! k)
       /\ files w2 = files (snd (Demo.called (Some "old.pkl"))).
Proof.
  assert (E : RelaxCalc.calc (Demo.relaxer (Some "old.pkl")) 0%nat Demo.world
              = (Ok (Demo.returned (Some "old.pkl")),
                 snd (Demo.called (Some "old.pkl"))))
    by (vm_compute; reflexivity).
  split; [exact E|].
  exact (calc_twice _ _ _ _ _ E).
Defined.

Lemma save_twice_witness :
  writable Demo.world "old.pkl" = true
  /\ exists w1 w2,
       TrajectoryObserver.save (TrajectoryObserver.__init__ Demo.resting)
         "old.pkl" Demo.world = (Ok tt, w1)
       /\ TrajectoryObserver.save Demo.once "old.pkl" w1 = (Ok tt, w2)
       /\ files w2
          = <["old.pkl" := Demo.dump (TrajectoryObserver.out Demo.once)]>
              (files Demo.world)
       /\ trace w2
          = (trace Demo.world ++ [EvWrite "old.pkl"; EvWrite "old.pkl"])%list.
Proof.
  assert (Hw : writable Demo.world "old.pkl" = true) by (vm_compute; reflexivity).
  split; [exact Hw|].
  exact (save_twice (H := Demo.toolkit)
           (TrajectoryObserver.__init__ Demo.resting) Demo.once "old.pkl"
           Demo.world Hw).
Defined.

(** ** What a snapshot holds *)

Section SnapshotFacts.
Context `{Toolkit}.
Import TrajectoryObserver.

Lemma faithful_init (P : Atoms -> Prop) (a : Atoms) : faithful P (__init__ a).
Proof. intros k e f s c p Hk. cbn in Hk. discriminate Hk. Qed.

(** A capture that returns adds a row read off the atoms as they are. *)
Lemma faithful_call (P : Atoms -> Prop) (obs obs' : t) (u : unit) :
  aligned obs ->
  faithful P obs ->
  P (atoms obs) ->
  __call__ obs = (Ok u, obs') ->
  faithful P obs'.
Proof.
  intros (Hf & Hs & Hp & Hc) Hfa HP Hcall. unfold __len__ in *.
  destruct (call_ok_inv _ _ _ Hcall) as (en & fo & st & He & Hfo & Hst & ->).
  intros k e f s c p. cbn.
  intros Hke Hkf Hks Hkc Hkp.
  destruct (decide (k < length (energies obs))%nat) as [Hlt|Hge].
  - rewrite lookup_app_l in Hke by lia. rewrite lookup_app_l in Hkf by lia.
    rewrite lookup_app_l in Hks by lia. rewrite lookup_app_l in Hkc by lia.
    rewrite lookup_app_l in Hkp by lia.
    eapply Hfa; eauto.
  - pose proof (lookup_lt_Some _ _ _ Hke) as Hk.
    rewrite length_app in Hk. cbn in Hk.
    assert (k = length (energies obs)) as -> by lia.
    rewrite lookup_app_r, Nat.sub_diag in Hke by lia.
    rewrite lookup_app_r, Hf, Nat.sub_diag in Hkf by lia.
    rewrite lookup_app_r, Hs, Nat.sub_diag in Hks by lia.
    rewrite lookup_app_r, Hc, Nat.sub_diag in Hkc by lia.
    rewrite lookup_app_r, Hp, Nat.sub_diag in Hkp by lia.
    cbn in Hke, Hkf, Hks, Hkc, Hkp.
    injection Hke as <-. injection Hkf as <-. injection Hks as <-.
    injection Hkc as <-. injection Hkp as <-.
    exists (atoms obs). split; [exact HP|]. repeat split; assumption.
Qed.

(** A tuple [__getitem__] returns is a complete row. *)
Lemma getitem_ok_row (obs : t) (i : Z) (e : float) (f : matrix) (s : vec)
    (c p : matrix) :
  aligned obs ->
  __getitem__ obs i = Ok (e, f, s, c, p) ->
  exists k,
    energies obs !! k = Some e /\ forces obs !! k = Some f
    /\ stresses obs !! k = Some s /\ cells obs !! k = Some c
    /\ atom_positions obs !! k = Some p.
Proof.
  intros (Hf & Hs & Hp & Hc) Hget. unfold __len__ in *.
  destruct (in_range (Z.of_nat (length (energies obs))) i) eqn:Hr.
  - unfold __getitem__ in Hget.
    destruct (py_index_in (energies obs) i Hr) as (e' & Hie & Hle).
    destruct (py_index_in (forces obs) i) as (f' & Hif & Hlf);
      [rewrite Hf; exact Hr|].
    destruct (py_index_in (stresses obs) i) as (s' & His & Hls);
      [rewrite Hs; exact Hr|].
    destruct (py_index_in (cells obs) i) as (c' & Hic & Hlc);
      [rewrite Hc; exact Hr|].
    destruct (py_index_in (atom_positions obs) i) as (p' & Hip & Hlp);
      [rewrite Hp; exact Hr|].
    rewrite Hie, Hif, His, Hic, Hip in Hget.
    injection Hget as -> -> -> -> ->.
    rewrite Hf in Hlf. rewrite Hs in Hls. rewrite Hc in Hlc. rewrite Hp in Hlp.
    eauto 10.
  - unfold __getitem__ in Hget.
    rewrite (py_index_out (energies obs) i Hr) in Hget. discriminate Hget.
Qed.

(** On a tracked observer the sequences run in parallel, every row is
    faithful to the calculator, and the atoms carry it. *)
Lemma tracked_inv (C : Calculator) (obs : t) :
  tracked C obs ->
  aligned obs
  /\ faithful (fun a => calc a = Some C) obs
  /\ calc (atoms obs) = Some C.
Proof.
  induction 1 as [a Ha | obs obs' _ (Hal & Hfa & HC) Hc
                 | obs a _ (Hal & Hfa & HC) Ha].
  - split; [apply init_aligned|]. split; [apply faithful_init | exact Ha].
  - split; [eapply call_ok_aligned; eauto|].
    split; [eapply faithful_call; eauto|].
    destruct (call_ok_inv _ _ _ Hc) as (? & ? & ? & _ & _ & _ & ->).
    exact HC.
  - split; [exact Hal|]. split; [exact Hfa | exact Ha].
Qed.

(** A run keeps the rows faithful while the optimizer's moves keep [P]. *)
Lemma run_faithful (C : Calculator) (script : list OptAction) :
  forall obs w obs' w',
    run script obs w = (Ok obs', w') ->
    aligned obs ->
    faithful (fun a => calc a = Some C) obs ->
    calc (atoms obs) = Some C ->
    aligned obs'
    /\ faithful (fun a => calc a = Some C) obs'
    /\ calc (atoms obs') = Some C.
Proof.
  induction script as [|act rest IH]; intros obs w obs' w' Hrun Hal Hfa HC.
  - cbn in Hrun. injection Hrun as <- _. auto.
  - destruct act; cbn [run] in Hrun;
      unfold bind, ret, raise, lift_result, emit, print, modify,
        call_observer in Hrun; cbn beta iota in Hrun.
    + destruct (set_positions (atoms obs) p) as [a|e] eqn:Hp; [|discriminate].
      eapply IH; [exact Hrun | exact Hal | exact Hfa |].
      cbn. rewrite (set_positions_calc _ _ _ Hp). exact HC.
    + eapply IH; [exact Hrun | exact Hal | exact Hfa | exact HC].
    + eapply IH; eauto.
    + destruct (__call__ obs) as [[u|e] obs1] eqn:Hc; [|discriminate].
      eapply IH; [exact Hrun | | |].
      * eapply call_ok_aligned; eauto.
      * eapply faithful_call; eauto.
      * destruct (call_ok_inv _ _ _ Hc) as (? & ? & ? & _ & _ & _ & ->).
        exact HC.
    + discriminate.
Qed.

Lemma relax_faithful (self : RelaxCalc.t) (structure : nat) (w w' : World)
    (obs : t) :
  RelaxCalc.relax self structure w = (Ok obs, w') ->
  aligned obs
  /\ faithful (fun a => calc a = Some (RelaxCalc.calculator self)) obs.
Proof.
  intros Hr.
  apply relax_inv in Hr
    as [(_ & [=] & _)|(s & _ & [(_ & [=] & _)|(a & w3 & _ & Hb & _)])].
  apply block_inv in Hb as [(_ & [=] & _)|(opt & rr & w1 & _ & Hrun & Hrr)].
  destruct rr as [obs1|e]; [|destruct Hrr as [[=] _]].
  destruct Hrr as [_ Hres].
  destruct (__call__ obs1) as [[u|e] obs2] eqn:Hc; [|discriminate].
  injection Hres as <-.
  eapply run_faithful in Hrun as (Hal & Hfa & HC);
    [| apply init_aligned | apply faithful_init | reflexivity].
  split; [eapply call_ok_aligned; eauto|].
  eapply faithful_call; eauto.
Qed.

(** X15: on an observer whose atoms keep one calculator and whose
    captures all returned, every tuple [get] returns, at an index of
    either sign, holds what that calculator gives for atoms with the
    tuple's positions and cell. *)
Theorem observer_snapshots_consistent (C : Calculator) (obs : t) (i : Z)
    (e : float) (f : matrix) (s : vec) (c p : matrix) :
  tracked C obs ->
  __getitem__ obs i = Ok (e, f, s, c, p) ->
  exists ats,
    map position ats = p
    /\ calc_energy C ats c = Ok e
    /\ calc_forces C ats c = Ok f
    /\ calc_stress C ats c = Ok s.
Proof.
  intros Ht Hget.
  destruct (tracked_inv _ _ Ht) as (Hal & Hfa & _).
  destruct (getitem_ok_row _ _ _ _ _ _ _ Hal Hget)
    as (k & He & Hf & Hs & Hc & Hp).
  destruct (Hfa k e f s c p He Hf Hs Hc Hp)
    as (a & HC & Hge & Hgf & Hgs & -> & ->).
  unfold get_potential_energy, get_forces, get_stress in Hge, Hgf, Hgs.
  rewrite HC in Hge, Hgf, Hgs.
  exists (atom_list a). split; [reflexivity|]. auto.
Qed.

(** X16: every snapshot of the record the relaxation returns holds what
    the driver's calculator gives for the geometry of that snapshot:
    there are atoms with the snapshot's positions and cell for which the
    calculator returns the snapshot's energy, forces and stress. *)
Theorem relax_snapshots_consistent (self : RelaxCalc.t) (structure : nat)
    (w w' : World) (obs : t) (i : Z) (e : float) (f : matrix) (s : vec)
    (c p : matrix) :
  RelaxCalc.relax self structure w = (Ok obs, w') ->
  __getitem__ obs i = Ok (e, f, s, c, p) ->
  exists ats,
    map position ats = p
    /\ calc_energy (RelaxCalc.calculator self) ats c = Ok e
    /\ calc_forces (RelaxCalc.calculator self) ats c = Ok f
    /\ calc_stress (RelaxCalc.calculator self) ats c = Ok s.
Proof.
  intros Hr Hget.
  destruct (relax_faithful _ _ _ _ _ Hr) as [Hal Hfa].
  destruct (getitem_ok_row _ _ _ _ _ _ _ Hal Hget)
    as (k & He & Hf & Hs & Hc & Hp).
  destruct (Hfa k e f s c p He Hf Hs Hc Hp)
    as (a & HC & Hge & Hgf & Hgs & -> & ->).
  unfold get_potential_energy, get_forces, get_stress in Hge, Hgf, Hgs.
  rewrite HC in Hge, Hgf, Hgs.
  exists (atom_list a). split; [reflexivity|]. auto.
Qed.

End SnapshotFacts.

Lemma observer_snapshots_consistent_witness :
  tracked Demo.flat Demo.once
  /\ TrajectoryObserver.__getitem__ Demo.once (-1)
     = Ok (0%float, [[0; 0; 0]; [0; 0; 0]]%float, [0; 0; 0; 0; 0; 0]%float,
           get_cell Demo.resting, get_positions Demo.resting)
  /\ exists ats,
       map position ats = get_positions Demo.resting
       /\ calc_energy Demo.flat ats (get_cell Demo.resting) = Ok 0%float
       /\ calc_forces Demo.flat ats (get_cell Demo.resting)
          = Ok [[0; 0; 0]; [0; 0; 0]]%float
       /\ calc_stress Demo.flat ats (get_cell Demo.resting)
          = Ok [0; 0; 0; 0; 0; 0]%float.
Proof.
  assert (Ht : tracked Demo.flat Demo.once).
  { eapply track_capture; [apply (track_init Demo.flat Demo.resting eq_refl)|].
    vm_compute. reflexivity. }
  assert (Hg : TrajectoryObserver.__getitem__ Demo.once (-1)
               = Ok (0%float, [[0; 0; 0]; [0; 0; 0]]%float,
                     [0; 0; 0; 0; 0; 0]%float,
                     get_cell Demo.resting, get_positions Demo.resting))
    by (vm_compute; reflexivity).
  split; [exact Ht|]. split; [exact Hg|].
  exact (observer_snapshots_consistent _ _ _ _ _ _ _ _ Ht Hg).
Defined.

Lemma relax_snapshots_consistent_witness :
  RelaxCalc.relax (Demo.relaxer None) 0%nat Demo.world
  = (Ok Demo.relaxed_obs, snd Demo.relaxed)
  /\ TrajectoryObserver.__getitem__ Demo.relaxed_obs 0
     = Ok (0%float, [[0; 0; 0]; [0; 0; 0]]%float, [0; 0; 0; 0; 0; 0]%float,
           get_cell Demo.resting, get_positions Demo.resting)
  /\ exists ats,
       map position ats = get_positions Demo.resting
       /\ calc_energy Demo.flat ats (get_cell Demo.resting) = Ok 0%float
       /\ calc_forces Demo.flat ats (get_cell Demo.resting)
          = Ok [[0; 0; 0]; [0; 0; 0]]%float
       /\ calc_stress Demo.flat ats (get_cell Demo.resting)
          = Ok [0; 0; 0; 0; 0; 0]%float.
Proof.
  assert (E : RelaxCalc.relax (Demo.relaxer None) 0%nat Demo.world
              = (Ok Demo.relaxed_obs, snd Demo.relaxed))
    by (vm_compute; reflexivity).
  assert (Hg : TrajectoryObserver.__getitem__ Demo.relaxed_obs 0
               = Ok (0%float, [[0; 0; 0]; [0; 0; 0]]%float,
                     [0; 0; 0; 0; 0; 0]%float,
                     get_cell Demo.resting, get_positions Demo.resting))
    by (vm_compute; reflexivity).
  split; [exact E|]. split; [exact Hg|].
  exact (relax_snapshots_consistent _ _ _ _ _ _ _ _ _ _ _ E Hg).
Defined.
